(** * A shallow embedding of [src/main.py]

    The program is a uniform front end over three distribution package
    managers (APT, DNF, Pacman).  Everything it does is an effect on the host:
    it reads [/etc/os-release], asks for the user id, starts external commands
    and reads configuration files.  The embedding makes the host explicit (a
    [World] the program observes, a [State] the program changes) and runs the
    program's methods in a small state-and-exception monad.

    Python [str] values are sequences of Unicode code points, so that the
    localized marker of [_resolve_apt] and the whitespace rules of
    [str.strip] / [str.splitlines] are the ones Python applies. *)

From Stdlib Require Import List String Ascii NArith ZArith Bool Lia.
From Stdlib Require Import DecimalString.
Import ListNotations.

Set Warnings "-register-all".

(* ================================================================== *)
(** * Python strings *)
(* ================================================================== *)

Module Str.

(** A code point, and a [str]: the sequence of its code points. *)
Definition char := N.
Definition str := list char.

(** An ASCII literal of the source as a [str]. *)
Definition lit (x : string) : str := map N_of_ascii (list_ascii_of_string x).
Arguments lit x%_string.

Fixpoint eqb (a b : str) : bool :=
  match a, b with
  | [], [] => true
  | x :: a', y :: b' => N.eqb x y && eqb a' b'
  | _, _ => false
  end.

(** [s.startswith(p)] *)
Fixpoint startswith (s p : str) : bool :=
  match p, s with
  | [], _ => true
  | x :: p', y :: s' => N.eqb x y && startswith s' p'
  | _ :: _, [] => false
  end.

(** [s.endswith(p)] *)
Definition endswith (s p : str) : bool := startswith (rev s) (rev p).

(** [needle in hay] *)
Fixpoint contains (needle hay : str) : bool :=
  startswith hay needle ||
  match hay with
  | [] => false
  | _ :: hay' => contains needle hay'
  end.

(** [x in xs] for a list of strings. *)
Definition mem (x : str) (xs : list str) : bool := existsb (eqb x) xs.

(** [s.split(sep)] for a non-empty [sep] (Python raises [ValueError] on an
    empty separator; the source only splits on literals).  The scan goes
    left to right; after a match it resumes behind the separator, which
    [skip] counts down. *)
Fixpoint split_go (sep : str) (skip : nat) (cur : str) (s : str) : list str :=
  match s with
  | [] => [rev cur]
  | c :: s' =>
      match skip with
      | S k => split_go sep k cur s'
      | O =>
          if startswith s sep
          then rev cur :: split_go sep (List.length sep - 1) [] s'
          else split_go sep 0 (c :: cur) s'
      end
  end.

Definition split (s sep : str) : list str := split_go sep 0 [] s.

(** [s.split(sep, 1)]: at most one cut, at the first occurrence. *)
Fixpoint split1_go (sep : str) (cur : str) (s : str) : list str :=
  match s with
  | [] => [rev cur]
  | c :: s' =>
      if startswith s sep
      then [rev cur; skipn (List.length sep) s]
      else split1_go sep (c :: cur) s'
  end.

Definition split1 (s sep : str) : list str := split1_go sep [] s.

Local Open Scope N_scope.

(** [str.isspace] on one code point: the characters [str.strip()] removes. *)
Definition isspace (c : char) : bool :=
  ((9 <=? c) && (c <=? 13)) || ((28 <=? c) && (c <=? 32))
  || (c =? 133) || (c =? 160) || (c =? 5760)
  || ((8192 <=? c) && (c <=? 8202))
  || (c =? 8232) || (c =? 8233) || (c =? 8239) || (c =? 8287)
  || (c =? 12288).

Fixpoint lstrip_by (p : char -> bool) (s : str) : str :=
  match s with
  | [] => []
  | c :: s' => if p c then lstrip_by p s' else s
  end.

Definition strip_by (p : char -> bool) (s : str) : str :=
  rev (lstrip_by p (rev (lstrip_by p s))).

(** [s.strip()] *)
Definition strip (s : str) : str := strip_by isspace s.

(** [s.strip(chars)] *)
Definition strip_chars (s chars : str) : str :=
  strip_by (fun c => existsb (N.eqb c) chars) s.

(** The line boundaries of [str.splitlines]. *)
Definition is_linebreak (c : char) : bool :=
  ((10 <=? c) && (c <=? 13)) || ((28 <=? c) && (c <=? 30))
  || (c =? 133) || (c =? 8232) || (c =? 8233).

(** [s.splitlines()]: the lines without their terminators; a carriage
    return followed by a line feed is one terminator; nothing is added
    after a final terminator. *)
Fixpoint splitlines_go (cur : str) (s : str) : list str :=
  match s with
  | [] => match cur with [] => [] | _ :: _ => [rev cur] end
  | c :: s' =>
      if is_linebreak c
      then rev cur ::
           match s' with
           | d :: s'' => if (c =? 13) && (d =? 10)
                         then splitlines_go [] s''
                         else splitlines_go [] s'
           | [] => splitlines_go [] s'
           end
      else splitlines_go (c :: cur) s'
  end.

Definition splitlines (s : str) : list str := splitlines_go [] s.

(** Iterating over a text file: the lines with their trailing newline
    (the file object has already turned every line ending into a line
    feed). *)
Fixpoint file_lines_go (cur : str) (s : str) : list str :=
  match s with
  | [] => match cur with [] => [] | _ :: _ => [rev cur] end
  | c :: s' =>
      if c =? 10
      then rev (c :: cur) :: file_lines_go [] s'
      else file_lines_go (c :: cur) s'
  end.

Definition file_lines (s : str) : list str := file_lines_go [] s.

(** [s.lower()].  On ASCII the mapping is written out; outside ASCII it is
    Unicode's, which the interpreter supplies ([unicode_lower], one code
    point may map to several). *)
Definition lower_char (unicode_lower : char -> str) (c : char) : str :=
  if (65 <=? c) && (c <=? 90) then [c + 32]
  else if c <? 128 then [c]
  else unicode_lower c.

Definition lower (unicode_lower : char -> str) (s : str) : str :=
  flat_map (lower_char unicode_lower) s.

(** Decimal text of an integer, as [str(n)] prints it. *)
Definition of_Z (n : Z) : str := lit (NilZero.string_of_int (Z.to_int n)).

End Str.

Import Str.

(* ================================================================== *)
(** * Python values, exceptions, the host *)
(* ================================================================== *)

(** The values that reach the program from its callers and from a parsed
    configuration file: scalars, lists and string-keyed dicts (a dict keeps
    its insertion order). *)
Inductive value : Type :=
| VNone
| VBool (b : bool)
| VInt (n : Z)
| VStr (s : str)
| VList (items : list value)
| VDict (entries : list (str * value)).

(** [bool(v)], the test of [if v:]. *)
Definition truthy (v : value) : bool :=
  match v with
  | VNone => false
  | VBool b => b
  | VInt n => negb (Z.eqb n 0)
  | VStr s => match s with [] => false | _ :: _ => true end
  | VList l => match l with [] => false | _ :: _ => true end
  | VDict d => match d with [] => false | _ :: _ => true end
  end.

(** [d.get(key, default)] and [d[key] = v] on an ordered dict. *)
Fixpoint dict_get {V : Type} (d : list (str * V)) (key : str) (default : V) : V :=
  match d with
  | [] => default
  | (k, v) :: d' => if Str.eqb k key then v else dict_get d' key default
  end.

Fixpoint dict_set {V : Type} (d : list (str * V)) (key : str) (v : V) : list (str * V) :=
  match d with
  | [] => [(key, v)]
  | (k, v0) :: d' => if Str.eqb k key then (k, v) :: d' else (k, v0) :: dict_set d' key v
  end.

(** An entry of [Transaction.actions]: the tuples [('install', package,
    version)] and [('remove', package)] that [add_install] and [add_remove]
    append. *)
Inductive action : Type :=
| Install (package version : value)
| Remove (package : value).

(** The exceptions the program raises or lets through.  [CalledProcessError]
    is what [subprocess.run(..., check=True)] raises, with the attributes
    Python gives it; [TransactionError] keeps the list [failed_actions] that
    the source formats into its message; [SystemExit] is [sys.exit]. *)
Inductive exn : Type :=
| SystemExit (code : Z)
| UnsupportedDistributionError (msg : str)
| TransactionError (failed_actions : list (action * exn))
| CalledProcessError (returncode : Z) (cmd : list str) (output stderr : value)
| FileNotFoundError (filename : str)
| ValueError (msg : str)
| TypeError
| AttributeError
| IndexError
| ParseError (msg : str).

(** [isinstance(e, Exception)]: [SystemExit] derives from [BaseException]
    only, so [except Exception] lets it through. *)
Definition is_Exception (e : exn) : bool :=
  match e with
  | SystemExit _ => false
  | _ => true
  end.

Definition is_FileNotFoundError (e : exn) : bool :=
  match e with
  | FileNotFoundError _ => true
  | _ => false
  end.

(** What a finished process leaves behind. *)
Record ProcessResult : Type := {
  exit_status : Z;
  out_text : str;
  err_text : str
}.

(** The host and the interpreter, as the program observes them.
    - [getuid]: [os.getuid()]; [None] where the platform has no such
      function ([AttributeError]);
    - [files]: the text of the file at a path, [None] when there is none;
    - [run_process]: what running an argument vector yields, given the
      commands run before it (so a command may succeed once and fail later);
      the executable is taken to exist and its output to decode;
    - [yaml_safe_load], [json_load]: the two parsers, either a value or the
      exception they raise;
    - [unicode_lower]: lower-casing outside ASCII;
    - [container_str]: [str(v)] of a list or dict. *)
Record World : Type := {
  getuid : option Z;
  files : str -> option str;
  run_process : list (list str) -> list str -> ProcessResult;
  yaml_safe_load : str -> exn + value;
  json_load : str -> exn + value;
  unicode_lower : char -> str;
  container_str : value -> str
}.

(** What the program changes: the commands it has started, oldest first, and
    the lines it has printed. *)
Record State : Type := {
  spawned : list (list str);
  printed : list str
}.

Definition initial : State := {| spawned := []; printed := [] |}.

(* ================================================================== *)
(** * The monad of the program's methods *)
(* ================================================================== *)

Inductive Outcome (A : Type) : Type :=
| Return (a : A)
| Raise (e : exn).
Arguments Return {A} a.
Arguments Raise {A} e.

(** A method reads the host, changes the state, and returns or raises.  The
    state survives a raise: a command that was started stays started. *)
Definition M (A : Type) : Type := World -> State -> Outcome A * State.

Definition ret {A} (a : A) : M A := fun _ st => (Return a, st).

Definition bind {A B} (c : M A) (k : A -> M B) : M B :=
  fun w st =>
    match c w st with
    | (Return a, st') => k a w st'
    | (Raise e, st') => (Raise e, st')
    end.

Definition raise {A} (e : exn) : M A := fun _ st => (Raise e, st).

(** [try: c  except <caught>: h] *)
Definition try_except {A} (c : M A) (caught : exn -> bool) (h : exn -> M A) : M A :=
  fun w st =>
    match c w st with
    | (Return a, st') => (Return a, st')
    | (Raise e, st') => if caught e then h e w st' else (Raise e, st')
    end.

Definition ask : M World := fun w st => (Return w, st).

Declare Scope monad_scope.
Delimit Scope monad_scope with monad.
Notation "x <- c ;; k" := (bind c (fun x => k))
  (at level 61, c at next level, right associativity) : monad_scope.
Notation "c ;;; k" := (bind c (fun _ => k))
  (at level 61, right associativity) : monad_scope.
Local Open Scope monad_scope.

(** [for x in xs: body(x)] *)
Fixpoint for_each {A} (xs : list A) (body : A -> M unit) : M unit :=
  match xs with
  | [] => ret tt
  | x :: xs' => body x ;;; for_each xs' body
  end.

Definition run {A} (w : World) (st : State) (c : M A) : Outcome A * State := c w st.

(* ================================================================== *)
(** * Built-ins the program calls *)
(* ================================================================== *)

(** [print(line)] *)
Definition print (line : str) : M unit :=
  fun _ st => (Return tt, {| spawned := spawned st; printed := printed st ++ [line] |}).

(** [sys.exit(code)] *)
Definition sys_exit {A} (code : Z) : M A := raise (SystemExit code).

(** [open(path)] followed by reading the text. *)
Definition open_ (path : str) : M str :=
  fun w st =>
    match files w path with
    | Some text => (Return text, st)
    | None => (Raise (FileNotFoundError path), st)
    end.

(** [str(v)] / the f-string field [{v}]. *)
Definition format (w : World) (v : value) : str :=
  match v with
  | VNone => lit "None"
  | VBool true => lit "True"
  | VBool false => lit "False"
  | VInt n => Str.of_Z n
  | VStr s => s
  | VList _ | VDict _ => container_str w v
  end.

(** [subprocess.CompletedProcess] *)
Record CompletedProcess : Type := {
  args : list str;
  returncode : Z;
  stdout : value;
  stderr : value
}.

(** An argument vector must consist of strings: anything else makes the
    launch raise [TypeError] before a process exists. *)
Fixpoint argv_of (cmd : list value) : option (list str) :=
  match cmd with
  | [] => Some []
  | VStr s :: cmd' =>
      match argv_of cmd' with
      | Some rest => Some (s :: rest)
      | None => None
      end
  | _ :: _ => None
  end.

(** [subprocess.run(cmd, check=..., capture_output=..., text=True)].
    Without [capture_output] the child writes to the inherited streams and
    both [stdout] and [stderr] of the result (and of the error) are [None].
    With [check] a non-zero exit status raises [CalledProcessError]. *)
Definition subprocess_run (cmd : list value) (check capture_output : bool)
  : M CompletedProcess :=
  fun w st =>
    match argv_of cmd with
    | None => (Raise TypeError, st)
    | Some argv =>
        let r := run_process w (spawned st) argv in
        let st' := {| spawned := spawned st ++ [argv]; printed := printed st |} in
        let out := if capture_output then VStr (out_text r) else VNone in
        let err := if capture_output then VStr (err_text r) else VNone in
        if check && negb (Z.eqb (exit_status r) 0)
        then (Raise (CalledProcessError (exit_status r) argv out err), st')
        else (Return {| args := argv; returncode := exit_status r;
                        stdout := out; stderr := err |}, st')
    end.

(* ================================================================== *)
(** * The program *)
(* ================================================================== *)

(** The messages of the source, as code points. *)
(** ["不支持的Linux发行版"] *)
Definition msg_unsupported_distribution : str :=
  [19981; 25903; 25345; 30340; 76; 105; 110; 117; 120; 21457; 34892; 29256]%N.
(** ["不支持的配置文件格式"] *)
Definition msg_unsupported_format : str :=
  [19981; 25903; 25345; 30340; 37197; 32622; 25991; 20214; 26684; 24335]%N.
(** ["错误: 需要管理员权限运行此操作"] *)
Definition msg_need_admin : str :=
  [38169; 35823; 58; 32; 38656; 35201; 31649; 29702; 21592; 26435; 38480;
   36816; 34892; 27492; 25805; 20316]%N.
(** ["依赖:"], the marker [_resolve_apt] looks for. *)
Definition depends_marker : str := [20381; 36182; 58]%N.

Module OSUtils.

Definition os_release_path : str := lit "/etc/os-release".

(** The body of [for line in f:] in [get_distro]. *)
Definition read_line (os_release : list (str * str)) (line : str)
  : M (list (str * str)) :=
  if contains (lit "=") line then
    match split1 (strip line) (lit "=") with
    | [key; value] => ret (dict_set os_release key (strip_chars value [34%N]))
    | _ => raise (ValueError (lit "not enough values to unpack (expected 2, got 1)"))
    end
  else ret os_release.

Fixpoint read_lines (os_release : list (str * str)) (lines : list str)
  : M (list (str * str)) :=
  match lines with
  | [] => ret os_release
  | line :: rest =>
      d <- read_line os_release line ;;
      read_lines d rest
  end.

(** [get_distro]: the dict of [/etc/os-release], or [None] without the
    file. *)
Definition get_distro : M (option (list (str * str))) :=
  try_except
    (text <- open_ os_release_path ;;
     d <- read_lines [] (file_lines text) ;;
     ret (Some d))
    is_FileNotFoundError
    (fun _ => ret None).

(** [distro.get('ID', '').lower()] *)
Definition id_lower (w : World) (distro : list (str * str)) : str :=
  lower (unicode_lower w) (dict_get distro (lit "ID") []).

(** [distro and (k1 in id or k2 in id ...)], as the truth value the caller
    tests: a missing or empty dict is false. *)
Definition id_has_any (keywords : list str) : M bool :=
  distro <- get_distro ;;
  w <- ask ;;
  ret match distro with
      | None => false
      | Some [] => false
      | Some ((_ :: _) as d) => existsb (fun k => contains k (id_lower w d)) keywords
      end.

Definition is_debian_based : M bool := id_has_any [lit "debian"; lit "ubuntu"].
Definition is_redhat_based : M bool :=
  id_has_any [lit "rhel"; lit "centos"; lit "fedora"].
Definition is_arch_based : M bool := id_has_any [lit "arch"].
Definition is_gentoo_based : M bool := id_has_any [lit "gentoo"].

(** [is_admin]: [os.getuid() == 0], false where [getuid] is missing. *)
Definition is_admin : M bool :=
  w <- ask ;;
  ret match getuid w with
      | Some uid => Z.eqb uid 0
      | None => false
      end.

Definition check_admin_or_exit : M unit :=
  admin <- is_admin ;;
  if negb admin then print msg_need_admin ;;; sys_exit 1
  else ret tt.

End OSUtils.

(** The abstract class [PackageManagerBackend]: the six methods a backend
    provides. *)
Module PackageManagerBackend.

Record t : Type := {
  install : value -> value -> M CompletedProcess;
  remove : value -> M CompletedProcess;
  update : M CompletedProcess;
  upgrade : M CompletedProcess;
  search : value -> M value;
  list_installed : M value
}.

End PackageManagerBackend.

Definition words (xs : list string) : list value :=
  map (fun x => VStr (lit x)) xs.

(** The token [f"{package}{sep}{version}"]. *)
Definition versioned (w : World) (package : value) (sep : string) (version : value)
  : value :=
  VStr (format w package ++ lit sep ++ format w version).

(** A read-only query: run with captured output, return [result.stdout]. *)
Definition capture (cmd : list value) : M value :=
  result <- subprocess_run cmd false true ;;
  ret (stdout result).

Module APTBackend.

(** The [cmd] list [install] has built when it calls [subprocess.run]. *)
Definition install_cmd (w : World) (package version : value) : list value :=
  let cmd := words ["sudo"; "apt"; "install"; "-y"]%string in
  if truthy version then cmd ++ [versioned w package "=" version]
  else cmd ++ [package].

Definition install (package version : value) : M CompletedProcess :=
  w <- ask ;;
  subprocess_run (install_cmd w package version) true false.

Definition remove (package : value) : M CompletedProcess :=
  subprocess_run (words ["sudo"; "apt"; "remove"; "-y"]%string ++ [package]) true false.

Definition update : M CompletedProcess :=
  subprocess_run (words ["sudo"; "apt"; "update"]%string) true false.

Definition upgrade : M CompletedProcess :=
  subprocess_run (words ["sudo"; "apt"; "upgrade"; "-y"]%string) true false.

Definition search (package : value) : M value :=
  capture (words ["apt-cache"; "search"]%string ++ [package]).

Definition list_installed : M value :=
  capture (words ["dpkg"; "--list"]%string).

Definition methods : PackageManagerBackend.t :=
  PackageManagerBackend.Build_t install remove update upgrade search list_installed.

End APTBackend.

Module DNFBackend.

Definition install_cmd (w : World) (package version : value) : list value :=
  let cmd := words ["sudo"; "dnf"; "install"; "-y"]%string in
  if truthy version then cmd ++ [versioned w package "-" version]
  else cmd ++ [package].

Definition install (package version : value) : M CompletedProcess :=
  w <- ask ;;
  subprocess_run (install_cmd w package version) true false.

Definition remove (package : value) : M CompletedProcess :=
  subprocess_run (words ["sudo"; "dnf"; "remove"; "-y"]%string ++ [package]) true false.

Definition update : M CompletedProcess :=
  subprocess_run (words ["sudo"; "dnf"; "check-update"]%string) true false.

Definition upgrade : M CompletedProcess :=
  subprocess_run (words ["sudo"; "dnf"; "upgrade"; "-y"]%string) true false.

Definition search (package : value) : M value :=
  capture (words ["dnf"; "search"]%string ++ [package]).

Definition list_installed : M value :=
  capture (words ["rpm"; "-qa"]%string).

Definition methods : PackageManagerBackend.t :=
  PackageManagerBackend.Build_t install remove update upgrade search list_installed.

End DNFBackend.

Module PacmanBackend.

Definition install_cmd (w : World) (package version : value) : list value :=
  let cmd := words ["sudo"; "pacman"; "-S"; "--noconfirm"]%string in
  if truthy version then cmd ++ [versioned w package "-" version]
  else cmd ++ [package].

Definition install (package version : value) : M CompletedProcess :=
  w <- ask ;;
  subprocess_run (install_cmd w package version) true false.

Definition remove (package : value) : M CompletedProcess :=
  subprocess_run (words ["sudo"; "pacman"; "-R"; "--noconfirm"]%string ++ [package])
                 true false.

Definition update : M CompletedProcess :=
  subprocess_run (words ["sudo"; "pacman"; "-Sy"]%string) true false.

Definition upgrade : M CompletedProcess :=
  subprocess_run (words ["sudo"; "pacman"; "-Su"; "--noconfirm"]%string) true false.

Definition search (package : value) : M value :=
  capture (words ["pacman"; "-Ss"]%string ++ [package]).

Definition list_installed : M value :=
  capture (words ["pacman"; "-Q"]%string).

Definition methods : PackageManagerBackend.t :=
  PackageManagerBackend.Build_t install remove update upgrade search list_installed.

End PacmanBackend.

(** The class of a backend object, which [isinstance] tests, and the methods
    each class brings. *)
Inductive BackendClass : Type := APT | DNF | Pacman.

Definition methods_of (b : BackendClass) : PackageManagerBackend.t :=
  match b with
  | APT => APTBackend.methods
  | DNF => DNFBackend.methods
  | Pacman => PacmanBackend.methods
  end.

(** [v.get(key, default)]: only a dict has the method. *)
Definition py_get (v : value) (key : str) (default : value) : M value :=
  match v with
  | VDict d => ret (dict_get d key default)
  | _ => raise AttributeError
  end.

(** The items [for x in v] visits: the elements of a list, the characters of
    a string, the keys of a dict; other values are not iterable. *)
Definition py_iter (v : value) : M (list value) :=
  match v with
  | VList l => ret l
  | VStr s => ret (map (fun c => VStr [c]) s)
  | VDict d => ret (map (fun kv => VStr (fst kv)) d)
  | _ => raise TypeError
  end.

Module ConfigLoader.

(** A parser of the host, run on the text of the open file. *)
Definition parse (parser : World -> str -> exn + value) (text : str) : M value :=
  fun w st =>
    match parser w text with
    | inr v => (Return v, st)
    | inl e => (Raise e, st)
    end.

(** [load]: the file is opened first; the extension chooses the parser
    inside the [with] block. *)
Definition load (file_path : str) : M value :=
  text <- open_ file_path ;;
  if endswith file_path (lit ".yaml") || endswith file_path (lit ".yml")
  then parse yaml_safe_load text
  else if endswith file_path (lit ".json")
  then parse json_load text
  else raise (ValueError msg_unsupported_format).

End ConfigLoader.

Module PackageManager.

(** The facade object: the backend chosen at construction. *)
Record t : Type := { backend : BackendClass }.

Definition _get_backend : M BackendClass :=
  debian <- OSUtils.is_debian_based ;;
  if debian then ret APT
  else
    redhat <- OSUtils.is_redhat_based ;;
    if redhat then ret DNF
    else
      arch <- OSUtils.is_arch_based ;;
      if arch then ret Pacman
      else raise (UnsupportedDistributionError msg_unsupported_distribution).

Definition __init__ : M t :=
  b <- _get_backend ;;
  ret {| backend := b |}.

Definition install (self : t) (package version : value) : M CompletedProcess :=
  OSUtils.check_admin_or_exit ;;;
  PackageManagerBackend.install (methods_of (backend self)) package version.

Definition remove (self : t) (package : value) : M CompletedProcess :=
  OSUtils.check_admin_or_exit ;;;
  PackageManagerBackend.remove (methods_of (backend self)) package.

Definition update (self : t) : M CompletedProcess :=
  OSUtils.check_admin_or_exit ;;;
  PackageManagerBackend.update (methods_of (backend self)).

Definition upgrade (self : t) : M CompletedProcess :=
  OSUtils.check_admin_or_exit ;;;
  PackageManagerBackend.upgrade (methods_of (backend self)).

Definition search (self : t) (package : value) : M value :=
  PackageManagerBackend.search (methods_of (backend self)) package.

Definition list_installed (self : t) : M value :=
  PackageManagerBackend.list_installed (methods_of (backend self)).

(** The body of the loop of [batch_install]. *)
Definition install_entry (self : t) (pkg : value) : M unit :=
  name <- py_get pkg (lit "name") VNone ;;
  version <- py_get pkg (lit "version") VNone ;;
  install self name version ;;;
  ret tt.

Definition batch_install (self : t) (config_file : str) : M unit :=
  OSUtils.check_admin_or_exit ;;;
  config <- ConfigLoader.load config_file ;;
  packages <- py_get config (lit "packages") (VList []) ;;
  items <- py_iter packages ;;
  for_each items (install_entry self).

End PackageManager.

Module DependencyResolver.

(** The body of the loop of [_resolve_apt]. *)
Definition scan_line (dependencies : list str) (line : str) : M (list str) :=
  if contains depends_marker line then
    match nth_error (split line depends_marker) 1 with
    | Some part =>
        let dep := strip part in
        if negb (mem dep dependencies)
        then ret (dependencies ++ [dep])
        else ret dependencies
    | None => raise IndexError
    end
  else ret dependencies.

Fixpoint scan_lines (dependencies : list str) (lines : list str) : M (list str) :=
  match lines with
  | [] => ret dependencies
  | line :: rest =>
      d <- scan_line dependencies line ;;
      scan_lines d rest
  end.

(** [result.stdout] as text: a method call on [None] has no such
    attribute. *)
Definition text_of (v : value) : M str :=
  match v with
  | VStr s => ret s
  | _ => raise AttributeError
  end.

Definition _resolve_apt (package : value) : M (list str) :=
  result <- subprocess_run (words ["apt-cache"; "depends"]%string ++ [package])
                           false true ;;
  out <- text_of (stdout result) ;;
  scan_lines [] (split out [10%N]).

Definition _resolve_dnf (package : value) : M (list str) :=
  result <- subprocess_run
              (words ["dnf"; "repoquery"; "--requires"]%string ++ [package])
              false true ;;
  out <- text_of (stdout result) ;;
  ret (splitlines out).

Definition _resolve_pacman (package : value) : M (list str) :=
  result <- subprocess_run (words ["pactree"]%string ++ [package]) false true ;;
  out <- text_of (stdout result) ;;
  ret (splitlines out).

(** [resolve], for the resolver of facade [pm]. *)
Definition resolve (pm : PackageManager.t) (package : value) : M (list str) :=
  match PackageManager.backend pm with
  | APT => _resolve_apt package
  | DNF => _resolve_dnf package
  | Pacman => _resolve_pacman package
  end.

End DependencyResolver.

Module Transaction.

Record t : Type := {
  pm : PackageManager.t;
  actions : list action
}.

Definition __init__ (package_manager : PackageManager.t) : t :=
  {| pm := package_manager; actions := [] |}.

Definition add_install (self : t) (package version : value) : t :=
  {| pm := pm self; actions := actions self ++ [Install package version] |}.

Definition add_remove (self : t) (package : value) : t :=
  {| pm := pm self; actions := actions self ++ [Remove package] |}.

(** [rollback]: the source's body is [pass] under a to-do note. *)
Definition rollback (self : t) : M unit := ret tt.

(** What the [try] block of [commit] does for one action.  Lines 311 and
    313 of the source end in [action[2](@ref)] and [action[1](@ref)]; they
    are read as the calls [self.pm.install(action[1], action[2])] and
    [self.pm.remove(action[1])]. *)
Definition perform (self : t) (a : action) : M unit :=
  match a with
  | Install package version =>
      PackageManager.install (pm self) package version ;;; ret tt
  | Remove package =>
      PackageManager.remove (pm self) package ;;; ret tt
  end.

Definition commit (self : t) : M unit :=
  let failed_actions : list (action * exn) := [] in
  for_each (actions self) (fun a =>
    try_except (perform self a) is_Exception
      (fun e =>
         let failed_actions := failed_actions ++ [(a, e)] in
         rollback self ;;;
         raise (TransactionError failed_actions))).

End Transaction.

(** [main]: build the facade, install one package, batch-install from
    [packages.yaml], then commit a three-step transaction. *)
Definition main : M unit :=
  pm <- PackageManager.__init__ ;;
  PackageManager.install pm (VStr (lit "nginx")) VNone ;;;
  PackageManager.batch_install pm (lit "packages.yaml") ;;;
  let tx := Transaction.__init__ pm in
  let tx := Transaction.add_install tx (VStr (lit "git")) VNone in
  let tx := Transaction.add_install tx (VStr (lit "docker")) VNone in
  let tx := Transaction.add_remove tx (VStr (lit "apache2")) in
  Transaction.commit tx.

(* ================================================================== *)
(** * Calls and classifications the statements quantify over *)
(* ================================================================== *)

(** The four state-changing calls of a backend, with string arguments. *)
Inductive MutatingCall : Type :=
| CallInstall (package : str) (version : option str)
| CallRemove (package : str)
| CallUpdate
| CallUpgrade.

Definition version_value (version : option str) : value :=
  match version with
  | Some v => VStr v
  | None => VNone
  end.

Definition invoke (b : BackendClass) (c : MutatingCall) : M CompletedProcess :=
  match c with
  | CallInstall package version =>
      PackageManagerBackend.install (methods_of b) (VStr package) (version_value version)
  | CallRemove package => PackageManagerBackend.remove (methods_of b) (VStr package)
  | CallUpdate => PackageManagerBackend.update (methods_of b)
  | CallUpgrade => PackageManagerBackend.upgrade (methods_of b)
  end.

(** An argument vector: fixed words, then one token. *)
Definition argv (ws : list string) (token : str) : list str :=
  map lit ws ++ [token].

(** The state after one more command has been started. *)
Definition started (st : State) (argv : list str) : State :=
  {| spawned := spawned st ++ [argv]; printed := printed st |}.

(** The family of the host: the three tests of [_get_backend] in its order,
    then [is_gentoo_based], which the source defines and no backend uses. *)
Inductive Family : Type := DebianLike | RedhatLike | ArchLike | GentooLike | Unknown.

Definition family : M Family :=
  debian <- OSUtils.is_debian_based ;;
  if debian then ret DebianLike
  else
    redhat <- OSUtils.is_redhat_based ;;
    if redhat then ret RedhatLike
    else
      arch <- OSUtils.is_arch_based ;;
      if arch then ret ArchLike
      else
        gentoo <- OSUtils.is_gentoo_based ;;
        if gentoo then ret GentooLike else ret Unknown.

(** The identifier [_resolve_apt] takes from a line that holds the marker. *)
Definition dep_of (line : str) : str := strip (nth 1 (split line depends_marker) []).

(** The identifiers [_resolve_apt] extracts from an output text, in order,
    before duplicates are dropped. *)
Definition extracted (out : str) : list str :=
  map dep_of (filter (contains depends_marker) (split out [10%N])).

(** One step of the loop of [_resolve_apt], as a function of the list so
    far. *)
Definition note (dependencies : list str) (dep : str) : list str :=
  if mem dep dependencies then dependencies else dependencies ++ [dep].

(** A list with every element's later occurrences dropped. *)
Fixpoint keep_first (l : list str) : list str :=
  match l with
  | [] => []
  | x :: l' => x :: filter (fun y => negb (Str.eqb x y)) (keep_first l')
  end.

(** The text whose lines are [lines], each ended by a line feed. *)
Definition unlines (lines : list str) : str :=
  flat_map (fun l => l ++ [10%N]) lines.

Definition breakfree (line : str) : Prop :=
  forall c, In c line -> is_linebreak c = false.

(** The command lines of the backends, as the statements name them. *)
Definition install_words (b : BackendClass) : list string :=
  match b with
  | APT => ["sudo"; "apt"; "install"; "-y"]
  | DNF => ["sudo"; "dnf"; "install"; "-y"]
  | Pacman => ["sudo"; "pacman"; "-S"; "--noconfirm"]
  end%string.

Definition remove_words (b : BackendClass) : list string :=
  match b with
  | APT => ["sudo"; "apt"; "remove"; "-y"]
  | DNF => ["sudo"; "dnf"; "remove"; "-y"]
  | Pacman => ["sudo"; "pacman"; "-R"; "--noconfirm"]
  end%string.

Definition version_sep (b : BackendClass) : str :=
  match b with
  | APT => lit "="
  | DNF | Pacman => lit "-"
  end.

(** The package token of an install: the name, qualified by a version
    that is present and not empty. *)
Definition install_token (b : BackendClass) (name : str) (version : option str) : str :=
  match version with
  | Some (c :: v) => name ++ version_sep b ++ c :: v
  | _ => name
  end.

Definition install_argv (b : BackendClass) (name : str) (version : option str)
  : list str :=
  argv (install_words b) (install_token b name version).

Definition remove_argv (b : BackendClass) (name : str) : list str :=
  argv (remove_words b) name.

Definition update_words (b : BackendClass) : list string :=
  match b with
  | APT => ["sudo"; "apt"; "update"]
  | DNF => ["sudo"; "dnf"; "check-update"]
  | Pacman => ["sudo"; "pacman"; "-Sy"]
  end%string.

Definition upgrade_words (b : BackendClass) : list string :=
  match b with
  | APT => ["sudo"; "apt"; "upgrade"; "-y"]
  | DNF => ["sudo"; "dnf"; "upgrade"; "-y"]
  | Pacman => ["sudo"; "pacman"; "-Su"; "--noconfirm"]
  end%string.

Definition call_argv (b : BackendClass) (c : MutatingCall) : list str :=
  match c with
  | CallInstall name version => install_argv b name version
  | CallRemove name => remove_argv b name
  | CallUpdate => map lit (update_words b)
  | CallUpgrade => map lit (upgrade_words b)
  end.

Definition search_words (b : BackendClass) : list string :=
  match b with
  | APT => ["apt-cache"; "search"]
  | DNF => ["dnf"; "search"]
  | Pacman => ["pacman"; "-Ss"]
  end%string.

Definition list_words (b : BackendClass) : list string :=
  match b with
  | APT => ["dpkg"; "--list"]
  | DNF => ["rpm"; "-qa"]
  | Pacman => ["pacman"; "-Q"]
  end%string.

Definition depends_words (b : BackendClass) : list string :=
  match b with
  | APT => ["apt-cache"; "depends"]
  | DNF => ["dnf"; "repoquery"; "--requires"]
  | Pacman => ["pactree"]
  end%string.

(** The facade's method for a state-changing call. *)
Definition facade_call (pm : PackageManager.t) (c : MutatingCall) : M CompletedProcess :=
  match c with
  | CallInstall name version =>
      PackageManager.install pm (VStr name) (version_value version)
  | CallRemove name => PackageManager.remove pm (VStr name)
  | CallUpdate => PackageManager.update pm
  | CallUpgrade => PackageManager.upgrade pm
  end.

(** An entry of a [packages] list that reads as a name and a version: a
    dict whose [name] is a string and whose [version] is a string or
    missing. *)
Definition reads_as (entry : value) (spec : str * option str) : Prop :=
  exists e, entry = VDict e /\
            dict_get e (lit "name") VNone = VStr (fst spec) /\
            dict_get e (lit "version") VNone = version_value (snd spec).






(** A well-formed entry of a [packages] list: a dict with a [name] and,
    possibly, a [version]. *)
Definition entry_of (spec : str * option str) : value :=
  match spec with
  | (name, Some v) => VDict [(lit "name", VStr name); (lit "version", VStr v)]
  | (name, None) => VDict [(lit "name", VStr name)]
  end.

(** The state after the commands [cmds] have been started, in order. *)
Definition started_all (st : State) (cmds : list (list str)) : State :=
  {| spawned := spawned st ++ cmds; printed := printed st |}.

(** A host on which every command exits with status 0. *)
Definition all_succeed (w : World) : Prop :=
  forall history a, exit_status (run_process w history a) = 0%Z.

(** A line [key=value] of the descriptor, without its line end. *)
Definition assignment (kv : str * str) : str := fst kv ++ 61%N :: snd kv.

(** An assignment that reads back as written: no [=] in the key, no line
    feed, no whitespace around it. *)
Definition tidy_assignment (kv : str * str) : Prop :=
  ~ In 61%N (fst kv) /\ ~ In 10%N (assignment kv) /\
  strip (assignment kv) = assignment kv.

(** What [get_distro] stores for an assignment: the value without the
    double quotes around it. *)
Definition store (d : list (str * str)) (kv : str * str) : list (str * str) :=
  dict_set d (fst kv) (strip_chars (snd kv) [34%N]).

(** A line of dependency output: an indent, the marker, the body. *)
Definition marker_line (item : str * str) : str :=
  fst item ++ depends_marker ++ snd item.

(** An indent and a body that cannot be mistaken for a marker or a line
    end: the indent has no line feed and not the marker's first character,
    the body has no line feed and no marker. *)
Definition plain_item (item : str * str) : Prop :=
  ~ In 10%N (fst item) /\ ~ In 20381%N (fst item) /\
  ~ In 10%N (snd item) /\ contains depends_marker (snd item) = false.

(* ================================================================== *)
(** * Hosts for the concrete runs *)
(* ================================================================== *)

Module Demo.

Definition quiet : ProcessResult :=
  {| exit_status := 0; out_text := []; err_text := [] |}.

Definition failing : ProcessResult :=
  {| exit_status := 100; out_text := [];
     err_text := lit "E: Unable to locate package" |}.

Fixpoint lookup (fs : list (str * str)) (path : str) : option str :=
  match fs with
  | [] => None
  | (p, text) :: fs' => if Str.eqb p path then Some text else lookup fs' path
  end.

(** A host with user id [uid] and files [fs]; a command fails when its last
    argument is in [broken], prints [out] otherwise; the YAML parser
    yields [yaml]. *)
Definition host (uid : option Z) (fs : list (str * str)) (broken : list str)
           (out : str) (yaml : value) : World :=
  {| getuid := uid;
     files := lookup fs;
     run_process := fun _ argv =>
       if mem (last argv []) broken then failing
       else {| exit_status := 0; out_text := out; err_text := [] |};
     yaml_safe_load := fun _ => inr yaml;
     json_load := fun _ => inl (ParseError (lit "Expecting value"));
     unicode_lower := fun c => [c];
     container_str := fun _ => lit "[]" |}.

Definition root : option Z := Some 0%Z.
Definition user : option Z := Some 1000%Z.

Definition apt : PackageManager.t := {| PackageManager.backend := APT |}.

(** The transaction of [main], with packages A, B and C. *)
Definition tx : Transaction.t :=
  Transaction.add_remove
    (Transaction.add_install
       (Transaction.add_install (Transaction.__init__ apt) (VStr (lit "A")) VNone)
       (VStr (lit "B")) VNone)
    (VStr (lit "C")).

(** A configuration whose only entry has a version and no name. *)
Definition nameless_with_version : value :=
  VDict [(lit "packages", VList [VDict [(lit "version", VStr (lit "1.0"))]])].

(** A configuration whose second entry has neither name nor version. *)
Definition nameless : value :=
  VDict [(lit "packages",
          VList [VDict [(lit "name", VStr (lit "git"))]; VDict []])].

Definition gentoo_release : str := lit "NAME=Gentoo
ID=gentoo
".

(** A line of [apt-cache depends] output for dependency [dep]. *)
Definition depends_line (dep : string) : str :=
  lit "  " ++ depends_marker ++ lit " " ++ lit dep ++ [10%N].

(** Three such lines, the first two alike. *)
Definition depends_output : str :=
  depends_line "libc6" ++ depends_line "libc6" ++ depends_line "zlib1g".

End Demo.

Module Samples.

Definition ubuntu_release : str := lit "NAME=Ubuntu
ID=ubuntu
".

(** A host with an Ubuntu descriptor, the file [packages.yaml] parsed to
    [yaml], and commands that fail on the arguments in [broken]. *)
Definition ubuntu (uid : option Z) (broken : list str) (yaml : value) : World :=
  Demo.host uid
    [(lit "/etc/os-release", ubuntu_release); (lit "packages.yaml", [])]
    broken [] yaml.

Definition two_packages : value :=
  VDict [(lit "packages",
          VList [entry_of (lit "git", None);
                 entry_of (lit "docker", Some (lit "5.0"))])].

End Samples.

(** A call that ends in [sys.exit(1)] after printing the privilege message,
    with no command started. *)
Definition exits_unprivileged {A} (w : World) (st : State) (c : M A) : Prop :=
  run w st c =
  (Raise (SystemExit 1),
   {| spawned := spawned st; printed := printed st ++ [msg_need_admin] |}).

(* ================================================================== *)
(** * Properties *)
(* ================================================================== *)

(** ** Strings *)

Lemma eqb_eq (a b : str) : Str.eqb a b = true <-> a = b.
Proof.
  revert b; induction a as [|x a IH]; intros [|y b]; simpl; split;
    try congruence; try reflexivity.
  - intros H. apply andb_true_iff in H as [Hx Hab].
    apply N.eqb_eq in Hx. apply IH in Hab. congruence.
  - intros H. injection H as -> ->.
    rewrite N.eqb_refl. simpl. now apply IH.
Qed.

Lemma eqb_refl (a : str) : Str.eqb a a = true.
Proof. now apply eqb_eq. Qed.

Lemma eqb_neq (a b : str) : Str.eqb a b = false <-> a <> b.
Proof.
  split.
  - intros H E. apply eqb_eq in E. congruence.
  - intros H. destruct (Str.eqb a b) eqn:E; [|reflexivity].
    apply eqb_eq in E. contradiction.
Qed.

Lemma mem_In (x : str) (xs : list str) : mem x xs = true <-> In x xs.
Proof.
  unfold mem. rewrite existsb_exists. split.
  - intros [y [Hy E]]. apply eqb_eq in E. now subst.
  - intros H. exists x. split; [assumption | apply eqb_refl].
Qed.

(** ** The privilege gate *)

Lemma check_admin_unprivileged (w : World) (st : State) :
  getuid w <> Some 0%Z ->
  exits_unprivileged w st OSUtils.check_admin_or_exit.
Proof.
  intros H. unfold exits_unprivileged, run, OSUtils.check_admin_or_exit,
    OSUtils.is_admin, bind, ask, ret, print, sys_exit, raise.
  destruct (getuid w) as [uid|]; [|reflexivity].
  destruct (Z.eqb_spec uid 0) as [->|Hne]; [congruence | reflexivity].
Qed.

Lemma check_admin_root (w : World) (st : State) :
  getuid w = Some 0%Z ->
  OSUtils.check_admin_or_exit w st = (Return tt, st).
Proof.
  intros H. unfold OSUtils.check_admin_or_exit, OSUtils.is_admin, bind, ask, ret.
  now rewrite H.
Qed.

(** A method that starts with the privilege check ends with its exit. *)
Lemma gated_exits {A} (w : World) (st : State) (k : M A) :
  getuid w <> Some 0%Z ->
  exits_unprivileged w st (OSUtils.check_admin_or_exit ;;; k).
Proof.
  intros H. pose proof (check_admin_unprivileged w st H) as G.
  unfold exits_unprivileged, run, bind in *. now rewrite G.
Qed.

(** C2.  Without root privilege, each of the facade's [install], [remove],
    [update], [upgrade] and [batch_install] ends the process with exit
    status 1: the outcome is [SystemExit 1], the list of started commands
    is what it was before the call, and only the privilege message has been
    printed. *)
Theorem unprivileged_call_exits_before_any_command :
  forall (w : World) (st : State) (pm : PackageManager.t)
         (package version : value) (config_file : str),
    getuid w <> Some 0%Z ->
    exits_unprivileged w st (PackageManager.install pm package version) /\
    exits_unprivileged w st (PackageManager.remove pm package) /\
    exits_unprivileged w st (PackageManager.update pm) /\
    exits_unprivileged w st (PackageManager.upgrade pm) /\
    exits_unprivileged w st (PackageManager.batch_install pm config_file).
Proof.
  intros w st pm package version config_file H.
  repeat split; now apply gated_exits.
Qed.

Lemma unprivileged_call_exits_witness :
  let w := Demo.host Demo.user [] [] [] VNone in
  getuid w <> Some 0%Z /\
  exits_unprivileged w initial
    (PackageManager.batch_install Demo.apt (lit "packages.yaml")).
Proof.
  assert (H : getuid (Demo.host Demo.user [] [] [] VNone) <> Some 0%Z)
    by (simpl; discriminate).
  split; [exact H|].
  exact (proj2 (proj2 (proj2 (proj2
    (unprivileged_call_exits_before_any_command _ initial Demo.apt
       VNone VNone (lit "packages.yaml") H))))).
Defined.

(** ** Command lines *)


(** What [subprocess_run] does with an argument vector of strings. *)
Lemma argv_of_words (ws : list string) (rest : list value) :
  argv_of (words ws ++ rest) =
  match argv_of rest with
  | Some r => Some (map lit ws ++ r)
  | None => None
  end.
Proof.
  unfold words. induction ws as [|x ws IH]; simpl.
  - now destruct (argv_of rest).
  - rewrite IH. now destruct (argv_of rest).
Qed.

Lemma spawned_run (w : World) (st : State) (cmd : list value) (a : list str)
      (check capture : bool) :
  argv_of cmd = Some a ->
  snd (subprocess_run cmd check capture w st) = started st a.
Proof.
  intros H. unfold subprocess_run. rewrite H.
  now destruct (check && negb (Z.eqb (exit_status (run_process w (spawned st) a)) 0)).
Qed.

Lemma argv_of_token (ws : list string) (token : str) :
  argv_of (words ws ++ [VStr token]) = Some (argv ws token).
Proof. now rewrite argv_of_words. Qed.

Lemma argv_of_plain (ws : list string) :
  argv_of (words ws) = Some (map lit ws).
Proof.
  rewrite <- (app_nil_r (words ws)), argv_of_words. simpl.
  now rewrite app_nil_r.
Qed.

(** A checked, uncaptured run: the command is started; a zero status
    returns, any other raises with both streams absent. *)
Lemma run_checked (w : World) (st : State) (cmd : list value) (a : list str) :
  argv_of cmd = Some a ->
  subprocess_run cmd true false w st =
  let r := run_process w (spawned st) a in
  if Z.eqb (exit_status r) 0
  then (Return {| args := a; returncode := exit_status r;
                  stdout := VNone; stderr := VNone |}, started st a)
  else (Raise (CalledProcessError (exit_status r) a VNone VNone), started st a).
Proof.
  intros H. unfold subprocess_run. rewrite H. simpl.
  now destruct (Z.eqb (exit_status (run_process w (spawned st) a)) 0).
Qed.

(** A captured, unchecked run: whatever the status, the result holds the
    text of standard output. *)
Lemma run_captured (w : World) (st : State) (cmd : list value) (a : list str) :
  argv_of cmd = Some a ->
  capture cmd w st =
  (Return (VStr (out_text (run_process w (spawned st) a))), started st a).
Proof.
  intros H. unfold capture, bind, subprocess_run. now rewrite H.
Qed.

(** C3 (as the code has it).  With a non-empty version, the started command
    ends in [name=version] under APT and in [name-version] under DNF and
    Pacman; with version [None] or the empty string it ends in [name]
    alone. *)
Theorem install_token_by_backend :
  forall (w : World) (st : State) (name v : str),
    v <> [] ->
    (snd (run w st (APTBackend.install (VStr name) (VStr v))) =
       started st (argv ["sudo"; "apt"; "install"; "-y"]%string (name ++ lit "=" ++ v)) /\
     snd (run w st (DNFBackend.install (VStr name) (VStr v))) =
       started st (argv ["sudo"; "dnf"; "install"; "-y"]%string (name ++ lit "-" ++ v)) /\
     snd (run w st (PacmanBackend.install (VStr name) (VStr v))) =
       started st (argv ["sudo"; "pacman"; "-S"; "--noconfirm"]%string
                        (name ++ lit "-" ++ v))) /\
    (forall version : value,
        version = VNone \/ version = VStr [] ->
        snd (run w st (APTBackend.install (VStr name) version)) =
          started st (argv ["sudo"; "apt"; "install"; "-y"]%string name) /\
        snd (run w st (DNFBackend.install (VStr name) version)) =
          started st (argv ["sudo"; "dnf"; "install"; "-y"]%string name) /\
        snd (run w st (PacmanBackend.install (VStr name) version)) =
          started st (argv ["sudo"; "pacman"; "-S"; "--noconfirm"]%string name)).
Proof.
  intros w st name v Hv. split.
  - destruct v as [|c v]; [congruence|].
    repeat split; unfold run; apply spawned_run; reflexivity.
  - intros version [-> | ->];
      repeat split; unfold run; apply spawned_run; reflexivity.
Qed.

Lemma install_token_witness :
  snd (run (Demo.host Demo.root [] [] [] VNone) initial
           (APTBackend.install (VStr (lit "nginx")) (VStr (lit "1.18")))) =
  started initial (argv ["sudo"; "apt"; "install"; "-y"]%string (lit "nginx=1.18")).
Proof.
  refine (proj1 (proj1 (install_token_by_backend
            (Demo.host Demo.root [] [] [] VNone) initial
            (lit "nginx") (lit "1.18") _))).
  discriminate.
Defined.

(** C3 as stated fails for a version that is not [None] but empty: APT's
    command ends in [nginx], not in [nginx=]. *)
Lemma install_empty_version_counterexample :
  VStr [] <> VNone /\
  snd (run (Demo.host Demo.root [] [] [] VNone) initial
           (APTBackend.install (VStr (lit "nginx")) (VStr []))) =
    started initial (argv ["sudo"; "apt"; "install"; "-y"]%string (lit "nginx")) /\
  lit "nginx" <> lit "nginx" ++ lit "=" ++ [].
Proof. repeat split; [discriminate | discriminate]. Qed.

(** ** Failures of the state-changing calls *)

Lemma invoke_argv (w : World) (b : BackendClass) (c : MutatingCall) :
  exists (cmd : list value) (a : list str),
    (forall st, invoke b c w st = subprocess_run cmd true false w st) /\
    argv_of cmd = Some a.
Proof.
  destruct b, c as [package [[|ch v]|] | package | |];
    unfold invoke, methods_of, APTBackend.methods, DNFBackend.methods,
           PacmanBackend.methods, PackageManagerBackend.install,
           PackageManagerBackend.remove, PackageManagerBackend.update,
           PackageManagerBackend.upgrade,
           APTBackend.install, DNFBackend.install, PacmanBackend.install,
           APTBackend.remove, DNFBackend.remove, PacmanBackend.remove,
           APTBackend.update, DNFBackend.update, PacmanBackend.update,
           APTBackend.upgrade, DNFBackend.upgrade, PacmanBackend.upgrade,
           bind, ask;
    eexists; eexists;
    (split; [ intros st; reflexivity | ]);
    unfold APTBackend.install_cmd, DNFBackend.install_cmd,
           PacmanBackend.install_cmd, version_value, versioned;
    cbv zeta; cbn [truthy format];
    first [ apply argv_of_token | apply argv_of_plain ].
Qed.

(** C4 (as the code has it).  Each [install], [remove], [update] and
    [upgrade] of each backend starts one command; when that command exits
    with a non-zero status the call raises [CalledProcessError] with the
    status and the command, and with [output] and [stderr] both [None]:
    nothing is caught, and nothing is captured. *)
Theorem failed_mutating_call_raises :
  forall (w : World) (st : State) (b : BackendClass) (c : MutatingCall),
  exists a : list str,
    snd (run w st (invoke b c)) = started st a /\
    (exit_status (run_process w (spawned st) a) <> 0%Z ->
     fst (run w st (invoke b c)) =
       Raise (CalledProcessError (exit_status (run_process w (spawned st) a))
                                 a VNone VNone)).
Proof.
  intros w st b c. destruct (invoke_argv w b c) as [cmd [a [Hrun Ha]]].
  exists a. unfold run. rewrite Hrun, (run_checked w st cmd a Ha). simpl.
  destruct (Z.eqb_spec (exit_status (run_process w (spawned st) a)) 0) as [E|E].
  - split; [reflexivity | intros H; contradiction].
  - split; reflexivity.
Qed.

Lemma failed_mutating_call_witness :
  let w := Demo.host Demo.root [] [lit "ghost"] [] VNone in
  exists a : list str,
    snd (run w initial (invoke APT (CallInstall (lit "ghost") None))) =
      started initial a /\
    exit_status (run_process w (spawned initial) a) <> 0%Z /\
    fst (run w initial (invoke APT (CallInstall (lit "ghost") None))) =
      Raise (CalledProcessError 100 a VNone VNone).
Proof.
  destruct (failed_mutating_call_raises
              (Demo.host Demo.root [] [lit "ghost"] [] VNone) initial
              APT (CallInstall (lit "ghost") None)) as [a [Hs Hr]].
  exists a. split; [exact Hs|].
  assert (Ha : argv ["sudo"; "apt"; "install"; "-y"]%string (lit "ghost") = a).
  { change (started initial
              (argv ["sudo"; "apt"; "install"; "-y"]%string (lit "ghost")) =
            started initial a) in Hs.
    unfold started in Hs. cbn [spawned initial app] in Hs.
    now injection Hs. }
  subst a. split; [discriminate|].
  apply Hr. discriminate.
Defined.

(** C4 as stated fails on the standard-error text: the process wrote one,
    the error carries [None]. *)
Lemma failed_install_carries_no_stderr_counterexample :
  let w := Demo.host Demo.root [] [lit "ghost"] [] VNone in
  let a := argv ["sudo"; "apt"; "install"; "-y"]%string (lit "ghost") in
  err_text (run_process w [] a) = lit "E: Unable to locate package" /\
  fst (run w initial (invoke APT (CallInstall (lit "ghost") None))) =
    Raise (CalledProcessError 100 a VNone VNone) /\
  VNone <> VStr (lit "E: Unable to locate package").
Proof. repeat split. discriminate. Qed.

(** ** Read-only queries *)

(** C9.  For each backend, [search] of any term and [list_installed] start
    one command and, whatever that command's exit status, return the text
    of its standard output; they never raise. *)
Theorem read_only_queries_return_stdout :
  forall (w : World) (st : State) (b : BackendClass) (term : str),
    (exists a : list str,
        run w st (PackageManagerBackend.search (methods_of b) (VStr term)) =
        (Return (VStr (out_text (run_process w (spawned st) a))), started st a)) /\
    (exists a : list str,
        run w st (PackageManagerBackend.list_installed (methods_of b)) =
        (Return (VStr (out_text (run_process w (spawned st) a))), started st a)).
Proof.
  intros w st b term. unfold run.
  destruct b; simpl; split; eexists;
    first [ apply run_captured, argv_of_token
          | apply run_captured, argv_of_plain ].
Qed.

(** ** Loading a configuration file *)

Lemma load_missing (w : World) (st : State) (path : str) :
  files w path = None ->
  run w st (ConfigLoader.load path) = (Raise (FileNotFoundError path), st).
Proof.
  intros H. unfold run, ConfigLoader.load, bind, open_. now rewrite H.
Qed.

Lemma load_present (w : World) (st : State) (path text : str) :
  files w path = Some text ->
  run w st (ConfigLoader.load path) =
  run w st
    (if endswith path (lit ".yaml") || endswith path (lit ".yml")
     then ConfigLoader.parse yaml_safe_load text
     else if endswith path (lit ".json")
          then ConfigLoader.parse json_load text
          else raise (ValueError msg_unsupported_format)).
Proof.
  intros H. unfold run, ConfigLoader.load, bind, open_. now rewrite H.
Qed.

(** C6 (as the code has it).  For a path that names an existing file and
    ends in none of [.yaml], [.yml] and [.json], [ConfigLoader.load] raises
    the unsupported-format error, a [ValueError] with the source's
    message. *)
Theorem load_unsupported_extension :
  forall (w : World) (st : State) (path text : str),
    files w path = Some text ->
    endswith path (lit ".yaml") = false ->
    endswith path (lit ".yml") = false ->
    endswith path (lit ".json") = false ->
    run w st (ConfigLoader.load path) =
    (Raise (ValueError msg_unsupported_format), st).
Proof.
  intros w st path text Hf Hyaml Hyml Hjson.
  rewrite (load_present w st path text Hf), Hyaml, Hyml, Hjson.
  reflexivity.
Qed.

Lemma load_unsupported_extension_witness :
  run (Demo.host Demo.root [(lit "notes.txt", lit "git")] [] [] VNone) initial
      (ConfigLoader.load (lit "notes.txt")) =
  (Raise (ValueError msg_unsupported_format), initial).
Proof.
  apply (load_unsupported_extension
           (Demo.host Demo.root [(lit "notes.txt", lit "git")] [] [] VNone)
           initial (lit "notes.txt") (lit "git")); reflexivity.
Defined.

(** C6 as stated fails when the file does not exist: the extension is not
    one of the three, and the error is [FileNotFoundError]. *)
Lemma load_missing_file_counterexample :
  let w := Demo.host Demo.root [] [] [] VNone in
  (endswith (lit "notes.txt") (lit ".yaml") = false /\
   endswith (lit "notes.txt") (lit ".yml") = false /\
   endswith (lit "notes.txt") (lit ".json") = false) /\
  run w initial (ConfigLoader.load (lit "notes.txt")) =
    (Raise (FileNotFoundError (lit "notes.txt")), initial) /\
  FileNotFoundError (lit "notes.txt") <> ValueError msg_unsupported_format.
Proof. repeat split. discriminate. Qed.

(** C10.  For a path with no file behind it [ConfigLoader.load] raises
    [FileNotFoundError], whatever the path ends in; and a run of [load]
    that raises the unsupported-format error has found a file at the
    path. *)
Theorem load_opens_before_extension :
  forall (w : World) (st : State) (path : str),
    (files w path = None ->
     run w st (ConfigLoader.load path) = (Raise (FileNotFoundError path), st)) /\
    (fst (run w st (ConfigLoader.load path)) =
       Raise (ValueError msg_unsupported_format) ->
     exists text, files w path = Some text).
Proof.
  intros w st path. split.
  - apply load_missing.
  - intros H. destruct (files w path) as [text|] eqn:Hf.
    + now exists text.
    + rewrite (load_missing w st path Hf) in H. discriminate.
Qed.

Lemma load_opens_before_extension_witness :
  let w := Demo.host Demo.root [] [] [] VNone in
  files w (lit "packages.yaml") = None /\
  run w initial (ConfigLoader.load (lit "packages.yaml")) =
    (Raise (FileNotFoundError (lit "packages.yaml")), initial).
Proof.
  split; [reflexivity|].
  apply (proj1 (load_opens_before_extension
                  (Demo.host Demo.root [] [] [] VNone) initial
                  (lit "packages.yaml"))).
  reflexivity.
Defined.

(** ** Transactions *)

Lemma for_each_cons {A} (x : A) (xs : list A) (body : A -> M unit)
      (w : World) (st : State) :
  for_each (x :: xs) body w st =
  match body x w st with
  | (Return _, st') => for_each xs body w st'
  | (Raise e, st') => (Raise e, st')
  end.
Proof. reflexivity. Qed.

Lemma for_each_app {A} (xs ys : list A) (body : A -> M unit)
      (w : World) (st st' : State) :
  for_each xs body w st = (Return tt, st') ->
  for_each (xs ++ ys) body w st = for_each ys body w st'.
Proof.
  revert st. induction xs as [|x xs IH]; intros st H.
  - simpl in H. unfold ret in H. now injection H as ->.
  - rewrite <- app_comm_cons, for_each_cons.
    rewrite for_each_cons in H.
    destruct (body x w st) as [[u|e] st1].
    + now apply IH.
    + discriminate.
Qed.

(** C1 (what the code does).  With actions [Install A; Install B; Remove C],
    the install of A returning and the install of B raising an exception
    [e], [commit] raises [TransactionError] naming [Install B] with [e], and
    the final state is the one the failed install left: nothing is started
    after it, neither the removal of C nor a removal of A. *)
Theorem commit_failure_runs_no_rollback :
  forall (w : World) (st st1 st2 : State) (tx : Transaction.t)
         (pA vA pB vB pC : value) (r : CompletedProcess) (e : exn),
    Transaction.actions tx = [Install pA vA; Install pB vB; Remove pC] ->
    run w st (PackageManager.install (Transaction.pm tx) pA vA) = (Return r, st1) ->
    run w st1 (PackageManager.install (Transaction.pm tx) pB vB) = (Raise e, st2) ->
    is_Exception e = true ->
    run w st (Transaction.commit tx) =
      (Raise (TransactionError [(Install pB vB, e)]), st2).
Proof.
  intros w st st1 st2 tx pA vA pB vB pC r e Hact HA HB He.
  unfold run in *. unfold Transaction.commit. rewrite Hact.
  rewrite for_each_cons.
  unfold try_except at 1, Transaction.perform at 1, bind at 1.
  rewrite HA. unfold ret at 1.
  rewrite for_each_cons.
  unfold try_except at 1, Transaction.perform at 1, bind at 1.
  rewrite HB, He. reflexivity.
Qed.

Lemma commit_failure_witness :
  let w := Demo.host Demo.root [] [lit "B"] [] VNone in
  let install_A := argv ["sudo"; "apt"; "install"; "-y"]%string (lit "A") in
  let install_B := argv ["sudo"; "apt"; "install"; "-y"]%string (lit "B") in
  run w initial (Transaction.commit Demo.tx) =
    (Raise (TransactionError
              [(Install (VStr (lit "B")) VNone,
                CalledProcessError 100 install_B VNone VNone)]),
     {| spawned := [install_A; install_B]; printed := [] |}).
Proof.
  apply (commit_failure_runs_no_rollback
           (Demo.host Demo.root [] [lit "B"] [] VNone) initial
           (started initial (argv ["sudo"; "apt"; "install"; "-y"]%string (lit "A")))
           _ Demo.tx (VStr (lit "A")) VNone (VStr (lit "B")) VNone (VStr (lit "C"))
           {| args := argv ["sudo"; "apt"; "install"; "-y"]%string (lit "A");
              returncode := 0; stdout := VNone; stderr := VNone |});
    reflexivity.
Defined.

(** ** Batch install *)

Lemma dict_get_absent {V} (d : list (str * V)) (key : str) (default : V) :
  (forall v, ~ In (key, v) d) ->
  dict_get d key default = default.
Proof.
  induction d as [|[k v] d IH]; intros H; simpl; [reflexivity|].
  destruct (Str.eqb k key) eqn:E.
  - apply eqb_eq in E. subst k. exfalso. apply (H v). now left.
  - apply IH. intros v' Hin. apply (H v'). now right.
Qed.

(** The facade's [install] of an absent name without a usable version: the
    command list ends in [None], and the launch raises [TypeError]. *)
Lemma install_nameless (w : World) (st : State) (pm : PackageManager.t)
      (version : value) :
  getuid w = Some 0%Z ->
  truthy version = false ->
  PackageManager.install pm VNone version w st = (Raise TypeError, st).
Proof.
  intros Hroot Hv. unfold PackageManager.install, bind.
  rewrite (check_admin_root w st Hroot).
  destruct pm as [[ | | ]]; simpl;
    unfold APTBackend.install, DNFBackend.install, PacmanBackend.install,
           APTBackend.install_cmd, DNFBackend.install_cmd,
           PacmanBackend.install_cmd, bind, ask, subprocess_run;
    rewrite Hv; cbv zeta; rewrite argv_of_words; reflexivity.
Qed.

(** C7 (as the code has it).  Run as root on a configuration whose
    [packages] list holds an entry without [name] and without a non-empty
    version, the entries before it having been installed, [batch_install]
    raises the [TypeError] of the launch at that entry: no command is
    started for it or for any entry after it. *)
Theorem batch_install_nameless_entry_fails :
  forall (w : World) (st st0 st1 : State) (pm : PackageManager.t) (path : str)
         (config entry : list (str * value)) (before after : list value),
    getuid w = Some 0%Z ->
    run w st (ConfigLoader.load path) = (Return (VDict config), st0) ->
    dict_get config (lit "packages") (VList []) =
      VList (before ++ VDict entry :: after) ->
    (forall v, ~ In (lit "name", v) entry) ->
    truthy (dict_get entry (lit "version") VNone) = false ->
    run w st0 (for_each before (PackageManager.install_entry pm)) = (Return tt, st1) ->
    run w st (PackageManager.batch_install pm path) = (Raise TypeError, st1).
Proof.
  intros w st st0 st1 pm path config entry before after
         Hroot Hload Hpk Hname Hver Hbefore.
  unfold run in *. unfold PackageManager.batch_install, bind.
  rewrite (check_admin_root w st Hroot), Hload.
  unfold py_get at 1, ret at 1. rewrite Hpk.
  unfold py_iter, ret at 1.
  rewrite (for_each_app before (VDict entry :: after) _ w st0 st1 Hbefore).
  rewrite for_each_cons.
  unfold PackageManager.install_entry, bind, py_get, ret.
  rewrite (dict_get_absent entry (lit "name") VNone Hname).
  now rewrite (install_nameless w st1 pm _ Hroot Hver).
Qed.

Lemma batch_install_nameless_witness :
  let w := Demo.host Demo.root [(lit "packages.yaml", [])] [] [] Demo.nameless in
  run w initial (PackageManager.batch_install Demo.apt (lit "packages.yaml")) =
    (Raise TypeError,
     started initial (argv ["sudo"; "apt"; "install"; "-y"]%string (lit "git"))).
Proof.
  apply (batch_install_nameless_entry_fails
           (Demo.host Demo.root [(lit "packages.yaml", [])] [] [] Demo.nameless)
           initial initial _ Demo.apt (lit "packages.yaml")
           [(lit "packages",
             VList [VDict [(lit "name", VStr (lit "git"))]; VDict []])]
           [] [VDict [(lit "name", VStr (lit "git"))]] []);
    try reflexivity.
  intros v H. exact H.
Defined.

(** C7 as stated fails for an entry that has a version and no name: run as
    root with a package manager that accepts the command, [batch_install]
    returns normally, having started an install of the token [None=1.0]. *)
Lemma batch_install_nameless_counterexample :
  let w := Demo.host Demo.root [(lit "packages.yaml", [])] [] []
                     Demo.nameless_with_version in
  run w initial (PackageManager.batch_install Demo.apt (lit "packages.yaml")) =
    (Return tt,
     started initial (argv ["sudo"; "apt"; "install"; "-y"]%string (lit "None=1.0"))).
Proof. reflexivity. Qed.

(** ** Detecting the distribution *)

Lemma contains_char (c : char) (s : str) :
  contains [c] s = true <-> In c s.
Proof.
  induction s as [|y s IH]; simpl.
  - split; [discriminate | contradiction].
  - rewrite orb_true_iff, IH, andb_true_iff, N.eqb_eq.
    split.
    + intros [[E _] | H]; [left; congruence | now right].
    + intros [E | H]; [left; split; [congruence | now destruct s] | now right].
Qed.

Lemma In_lstrip_by (p : char -> bool) (c : char) (s : str) :
  p c = false -> In c s -> In c (lstrip_by p s).
Proof.
  intros Hp. induction s as [|y s IH]; simpl; [tauto|].
  intros [-> | H].
  - rewrite Hp. now left.
  - destruct (p y); [now apply IH | now right].
Qed.

Lemma In_strip (c : char) (s : str) :
  isspace c = false -> In c s -> In c (strip s).
Proof.
  intros Hp H. unfold strip, strip_by.
  apply in_rev. rewrite rev_involutive.
  apply In_lstrip_by; [assumption|].
  apply -> in_rev. now apply In_lstrip_by.
Qed.

Lemma split1_go_pair (c : N) (cur s : str) :
  In c s -> exists a b, split1_go [c] cur s = [a; b].
Proof.
  revert cur. induction s as [|y s IH]; intros cur H; [contradiction|].
  cbn [split1_go].
  destruct (startswith (y :: s) [c]) eqn:E.
  - now eexists; eexists.
  - apply IH. destruct H as [-> | H]; [|assumption].
    simpl in E. rewrite N.eqb_refl in E. now destruct s.
Qed.

(** The unpacking in [get_distro] always finds its two parts. *)
Lemma read_line_returns (d : list (str * str)) (line : str) (w : World) (st : State) :
  exists d', OSUtils.read_line d line w st = (Return d', st).
Proof.
  unfold OSUtils.read_line.
  destruct (contains (lit "=") line) eqn:E.
  - apply (contains_char 61%N) in E.
    apply (In_strip 61%N) in E; [|reflexivity].
    destruct (split1_go_pair 61%N [] (strip line) E) as [a [b Hab]].
    unfold split1. change (lit "=") with [61%N]. rewrite Hab.
    now eexists.
  - now eexists.
Qed.

Lemma read_lines_returns (lines : list str) (d : list (str * str))
      (w : World) (st : State) :
  exists d', OSUtils.read_lines d lines w st = (Return d', st).
Proof.
  revert d. induction lines as [|line rest IH]; intros d.
  - now exists d.
  - cbn [OSUtils.read_lines]. unfold bind.
    destruct (read_line_returns d line w st) as [d1 ->].
    apply IH.
Qed.

(** [get_distro] returns, and leaves the state as it was. *)
Lemma get_distro_returns (w : World) (st : State) :
  exists distro, OSUtils.get_distro w st = (Return distro, st).
Proof.
  unfold OSUtils.get_distro, try_except, bind, open_.
  destruct (files w OSUtils.os_release_path) as [text|].
  - destruct (read_lines_returns (file_lines text) [] w st) as [d ->].
    now eexists.
  - now eexists.
Qed.

Lemma id_has_any_returns (keywords : list str) (w : World) (st : State) :
  exists b, OSUtils.id_has_any keywords w st = (Return b, st).
Proof.
  unfold OSUtils.id_has_any, bind, ask, ret.
  destruct (get_distro_returns w st) as [distro ->].
  now eexists.
Qed.

(** The classification always returns. *)
Lemma family_returns (w : World) (st : State) :
  exists f, family w st = (Return f, st).
Proof.
  unfold family, bind, ret, OSUtils.is_debian_based, OSUtils.is_redhat_based,
    OSUtils.is_arch_based, OSUtils.is_gentoo_based.
  destruct (id_has_any_returns [lit "debian"; lit "ubuntu"] w st) as [[|] ->];
    [now eexists|].
  destruct (id_has_any_returns [lit "rhel"; lit "centos"; lit "fedora"] w st)
    as [[|] ->]; [now eexists|].
  destruct (id_has_any_returns [lit "arch"] w st) as [[|] ->]; [now eexists|].
  destruct (id_has_any_returns [lit "gentoo"] w st) as [[|] ->]; now eexists.
Qed.

(** Without the descriptor file no test matches. *)
Lemma id_has_any_absent (keywords : list str) (w : World) (st : State) :
  files w OSUtils.os_release_path = None ->
  OSUtils.id_has_any keywords w st = (Return false, st).
Proof.
  intros H.
  unfold OSUtils.id_has_any, OSUtils.get_distro, try_except, bind, open_, ask, ret.
  now rewrite H.
Qed.

Lemma absent_descriptor_unknown (w : World) (st : State) :
  files w OSUtils.os_release_path = None ->
  family w st = (Return Unknown, st).
Proof.
  intros H.
  unfold family, bind, ret, OSUtils.is_debian_based, OSUtils.is_redhat_based,
    OSUtils.is_arch_based, OSUtils.is_gentoo_based.
  now rewrite !(id_has_any_absent _ w st H).
Qed.

(** The backend chosen for each family; none for the last two. *)
Lemma backend_of_family (w : World) (st : State) (f : Family) :
  family w st = (Return f, st) ->
  PackageManager._get_backend w st =
  match f with
  | DebianLike => (Return APT, st)
  | RedhatLike => (Return DNF, st)
  | ArchLike => (Return Pacman, st)
  | GentooLike | Unknown =>
      (Raise (UnsupportedDistributionError msg_unsupported_distribution), st)
  end.
Proof.
  unfold family, PackageManager._get_backend, bind, ret, raise,
    OSUtils.is_debian_based, OSUtils.is_redhat_based,
    OSUtils.is_arch_based, OSUtils.is_gentoo_based.
  destruct (id_has_any_returns [lit "debian"; lit "ubuntu"] w st) as [[|] ->];
    [now intros [= <-]|].
  destruct (id_has_any_returns [lit "rhel"; lit "centos"; lit "fedora"] w st)
    as [[|] ->]; [now intros [= <-]|].
  destruct (id_has_any_returns [lit "arch"] w st) as [[|] ->];
    [now intros [= <-]|].
  destruct (id_has_any_returns [lit "gentoo"] w st) as [[|] ->];
    now intros [= <-].
Qed.

(** C8.  On a host without the descriptor file, or whose family is
    gentoo-like, or whose family is unknown, constructing the facade raises
    [UnsupportedDistributionError]. *)
Theorem unsupported_family_fails_construction :
  forall (w : World) (st : State),
    files w OSUtils.os_release_path = None \/
    run w st family = (Return GentooLike, st) \/
    run w st family = (Return Unknown, st) ->
    run w st PackageManager.__init__ =
      (Raise (UnsupportedDistributionError msg_unsupported_distribution), st).
Proof.
  intros w st H. unfold run in *.
  assert (Hf : family w st = (Return GentooLike, st) \/
               family w st = (Return Unknown, st)).
  { destruct H as [H | [H | H]]; [right | left | right]; try assumption.
    now apply absent_descriptor_unknown. }
  unfold PackageManager.__init__, bind.
  destruct Hf as [Hf | Hf]; now rewrite (backend_of_family w st _ Hf).
Qed.

Lemma unsupported_family_witness :
  let w := Demo.host Demo.root
             [(lit "/etc/os-release", Demo.gentoo_release)] [] [] VNone in
  run w initial family = (Return GentooLike, initial) /\
  run w initial PackageManager.__init__ =
    (Raise (UnsupportedDistributionError msg_unsupported_distribution), initial).
Proof.
  split; [reflexivity|].
  apply (unsupported_family_fails_construction
           (Demo.host Demo.root
              [(lit "/etc/os-release", Demo.gentoo_release)] [] [] VNone)
           initial).
  right; left; reflexivity.
Defined.

(** ** Resolving dependencies *)

Lemma split_go_nonempty (sep : str) (s : str) :
  forall (k : nat) (cur : str), exists a rest, split_go sep k cur s = a :: rest.
Proof.
  induction s as [|c s IH]; intros k cur; cbn [split_go].
  - now eexists; eexists.
  - destruct k as [|k]; [|apply IH].
    destruct (startswith (c :: s) sep); [now eexists; eexists | apply IH].
Qed.

(** A line that contains the separator splits into at least two parts, so
    the index [1] of [_resolve_apt] is always in range. *)
Lemma split_go_two (sep : str) (s : str) :
  sep <> [] ->
  forall cur, contains sep s = true ->
  exists a b rest, split_go sep 0 cur s = a :: b :: rest.
Proof.
  intros Hsep. induction s as [|c s IH]; intros cur H.
  - destruct sep; [congruence | discriminate].
  - cbn [split_go]. cbn [contains] in H.
    destruct (startswith (c :: s) sep).
    + destruct (split_go_nonempty sep s (List.length sep - 1) []) as [b [rest ->]].
      now eexists; eexists; eexists.
    + apply IH. exact H.
Qed.

Lemma scan_line_returns (deps : list str) (line : str) (w : World) (st : State) :
  DependencyResolver.scan_line deps line w st =
  (Return (if contains depends_marker line then note deps (dep_of line) else deps), st).
Proof.
  unfold DependencyResolver.scan_line, note, dep_of.
  destruct (contains depends_marker line) eqn:E; [|reflexivity].
  destruct (split_go_two depends_marker line ltac:(discriminate) [] E)
    as [a [b [rest Hs]]].
  unfold split. rewrite Hs. cbn [nth_error nth].
  now destruct (mem (strip b) deps).
Qed.

Lemma scan_lines_returns (lines : list str) (deps : list str) (w : World) (st : State) :
  DependencyResolver.scan_lines deps lines w st =
  (Return (fold_left note
             (map dep_of (filter (contains depends_marker) lines)) deps), st).
Proof.
  revert deps. induction lines as [|line rest IH]; intros deps; [reflexivity|].
  cbn [DependencyResolver.scan_lines filter]. unfold bind.
  rewrite scan_line_returns, IH.
  now destruct (contains depends_marker line).
Qed.

Lemma filter_filter_comm (p q : str -> bool) (l : list str) :
  filter p (filter q l) = filter q (filter p l).
Proof.
  induction l as [|x l IH]; [reflexivity|]. simpl.
  destruct (q x) eqn:Q, (p x) eqn:P; simpl; rewrite ?Q, ?P, IH; reflexivity.
Qed.

Lemma filter_absorb (q : str -> bool) (x : str) (l : list str) :
  q x = false ->
  filter q (filter (fun y => negb (Str.eqb x y)) l) = filter q l.
Proof.
  intros Hq. induction l as [|y l IH]; [reflexivity|]. simpl.
  destruct (Str.eqb x y) eqn:E; simpl.
  - apply eqb_eq in E. subst y. now rewrite Hq.
  - now rewrite IH.
Qed.

Lemma filter_filter (p q : str -> bool) (l : list str) :
  filter q (filter p l) = filter (fun y => p y && q y) l.
Proof.
  induction l as [|x l IH]; [reflexivity|]. simpl.
  destruct (p x) eqn:P; simpl; [destruct (q x)|]; now rewrite IH.
Qed.

Lemma keep_first_filter (q : str -> bool) (l : list str) :
  keep_first (filter q l) = filter q (keep_first l).
Proof.
  induction l as [|x l IH]; [reflexivity|].
  cbn [filter keep_first]. destruct (q x) eqn:Q.
  - cbn [keep_first]. now rewrite IH, filter_filter_comm.
  - now rewrite IH, filter_absorb.
Qed.

(** The accumulating loop keeps the first occurrence of each identifier. *)
Lemma fold_note (ids acc : list str) :
  fold_left note ids acc =
  acc ++ keep_first (filter (fun y => negb (mem y acc)) ids).
Proof.
  revert acc. induction ids as [|x ids IH]; intros acc.
  - simpl. now rewrite app_nil_r.
  - cbn [fold_left filter]. unfold note at 2.
    destruct (mem x acc) eqn:Hx; cbn [negb].
    + apply IH.
    + rewrite IH, <- app_assoc. cbn [app keep_first]. f_equal. f_equal.
      rewrite <- keep_first_filter, filter_filter. f_equal.
      apply filter_ext. intros y. unfold mem.
      rewrite existsb_app. cbn [existsb]. rewrite orb_false_r, negb_orb.
      f_equal. f_equal.
      destruct (Str.eqb y x) eqn:E1, (Str.eqb x y) eqn:E2; try reflexivity.
      * apply eqb_eq in E1. subst. now rewrite eqb_refl in E2.
      * apply eqb_eq in E2. subst. now rewrite eqb_refl in E1.
Qed.

Lemma fold_note_nil (ids : list str) : fold_left note ids [] = keep_first ids.
Proof.
  rewrite fold_note. cbn [app]. f_equal.
  induction ids as [|x ids IH]; [reflexivity|].
  cbn [filter]. change (mem x []) with false. cbn [negb]. now rewrite IH.
Qed.

Lemma keep_first_In (l : list str) (x : str) : In x (keep_first l) <-> In x l.
Proof.
  induction l as [|y l IH]; [reflexivity|]. cbn [keep_first In].
  rewrite filter_In, IH. split.
  - intros [H | [H _]]; tauto.
  - intros [H | H]; [now left|].
    destruct (Str.eqb y x) eqn:E.
    + left. now apply eqb_eq.
    + right. now split.
Qed.

Lemma keep_first_NoDup (l : list str) : NoDup (keep_first l).
Proof.
  induction l as [|x l IH]; cbn [keep_first]; constructor.
  - rewrite filter_In. intros [_ H]. now rewrite eqb_refl in H.
  - now apply NoDup_filter.
Qed.

(** [splitlines] gives back the lines of a text built from lines. *)
Lemma splitlines_go_line (l cur rest : str) :
  breakfree l ->
  splitlines_go cur (l ++ 10%N :: rest) = (rev cur ++ l) :: splitlines_go [] rest.
Proof.
  revert cur. induction l as [|c l IH]; intros cur H.
  - cbn [app splitlines_go]. rewrite app_nil_r.
    change (is_linebreak 10%N) with true. cbv iota.
    now destruct rest.
  - cbn [app splitlines_go]. rewrite (H c) by now left.
    rewrite IH by (intros d Hd; apply H; now right).
    cbn [rev]. now rewrite <- app_assoc.
Qed.

Lemma splitlines_unlines (lines : list str) :
  Forall breakfree lines -> splitlines (unlines lines) = lines.
Proof.
  unfold splitlines. induction 1 as [|l lines Hl _ IH]; [reflexivity|].
  cbn [unlines flat_map]. rewrite <- app_assoc. cbn [app].
  rewrite splitlines_go_line by assumption. cbn [rev app].
  f_equal. exact IH.
Qed.

Lemma run_uncheck_captured (w : World) (st : State) (cmd : list value) (a : list str) :
  argv_of cmd = Some a ->
  subprocess_run cmd false true w st =
  let r := run_process w (spawned st) a in
  (Return {| args := a; returncode := exit_status r;
             stdout := VStr (out_text r); stderr := VStr (err_text r) |},
   started st a).
Proof. intros H. unfold subprocess_run. now rewrite H. Qed.

(** C5.  For a package [package] and whatever the query prints: under APT
    [resolve] returns the extracted identifiers with the first occurrence
    of each kept and later ones dropped, so none occurs twice and none is
    lost; under DNF and Pacman it returns [splitlines] of the output, which
    for a text made of lines is the list of those lines, in order, repeats
    included. *)
Theorem resolve_dedup_policy :
  forall (w : World) (st : State) (package : str),
    let printed_by ws := out_text (run_process w (spawned st) (argv ws package)) in
    let under b := fst (run w st (DependencyResolver.resolve
                                    {| PackageManager.backend := b |}
                                    (VStr package))) in
    (under APT =
       Return (keep_first (extracted (printed_by ["apt-cache"; "depends"]%string))) /\
     (forall ids, NoDup (keep_first ids)) /\
     (forall ids x, In x (keep_first ids) <-> In x ids)) /\
    (under DNF =
       Return (splitlines (printed_by ["dnf"; "repoquery"; "--requires"]%string)) /\
     under Pacman = Return (splitlines (printed_by ["pactree"]%string)) /\
     (forall lines, Forall breakfree lines -> splitlines (unlines lines) = lines)).
Proof.
  intros w st package printed_by under. subst printed_by under.
  unfold run, DependencyResolver.resolve. cbn [PackageManager.backend].
  unfold DependencyResolver._resolve_apt, DependencyResolver._resolve_dnf,
    DependencyResolver._resolve_pacman, bind.
  rewrite !(run_uncheck_captured w st _ _ (argv_of_token _ package)).
  cbv zeta. cbn [stdout DependencyResolver.text_of]. unfold ret at 1 3 5.
  rewrite scan_lines_returns, fold_note_nil. cbn [fst].
  repeat split.
  - apply keep_first_NoDup.
  - apply keep_first_In.
  - apply keep_first_In.
  - apply splitlines_unlines.
Qed.

Lemma resolve_dedup_policy_witness :
  let w := Demo.host Demo.root [] [] Demo.depends_output VNone in
  fst (run w initial (DependencyResolver.resolve Demo.apt (VStr (lit "curl")))) =
    Return [lit "libc6"; lit "zlib1g"] /\
  splitlines (unlines [lit "glibc"; lit "glibc"; lit "bash"]) =
    [lit "glibc"; lit "glibc"; lit "bash"].
Proof.
  pose proof (resolve_dedup_policy
                (Demo.host Demo.root [] [] Demo.depends_output VNone)
                initial (lit "curl")) as [[Hapt _] [_ [_ Hlines]]].
  split.
  - exact Hapt.
  - apply Hlines. repeat constructor; intros c Hc; simpl in Hc;
      repeat (destruct Hc as [<- | Hc]; [reflexivity|]); contradiction.
Defined.


(* ================================================================== *)
(** * Further properties of the code *)
(* ================================================================== *)

(** ** More on strings *)

Lemma In_lstrip_by_inv (p : char -> bool) (c : char) (s : str) :
  In c (lstrip_by p s) -> In c s.
Proof.
  induction s as [|y s IH]; simpl; [tauto|].
  destruct (p y); [intros H; right; now apply IH | tauto].
Qed.

Lemma In_strip_by_inv (p : char -> bool) (c : char) (s : str) :
  In c (strip_by p s) -> In c s.
Proof.
  unfold strip_by. intros H. apply in_rev in H.
  apply In_lstrip_by_inv in H. apply in_rev in H.
  now apply In_lstrip_by_inv in H.
Qed.

Lemma lstrip_by_all (p : char -> bool) (ws s : str) :
  Forall (fun c => p c = true) ws ->
  lstrip_by p (ws ++ s) = lstrip_by p s.
Proof.
  induction 1 as [|c ws Hc _ IH]; [reflexivity|].
  cbn [app lstrip_by]. now rewrite Hc.
Qed.

Lemma lstrip_by_app (p : char -> bool) (s ws : str) :
  lstrip_by p s <> [] ->
  lstrip_by p (s ++ ws) = lstrip_by p s ++ ws.
Proof.
  induction s as [|c s IH]; cbn [app lstrip_by]; [congruence|].
  destruct (p c); [exact IH | reflexivity].
Qed.

Lemma lstrip_by_nil (p : char -> bool) (s ws : str) :
  Forall (fun c => p c = true) ws ->
  lstrip_by p s = [] ->
  lstrip_by p (s ++ ws) = [].
Proof.
  intros Hws. induction s as [|c s IH]; cbn [app lstrip_by].
  - intros _. rewrite <- (app_nil_r ws), lstrip_by_all; auto.
  - destruct (p c); [exact IH | discriminate].
Qed.

(** Whitespace around a text does not change what [strip] returns. *)
Lemma strip_by_app (p : char -> bool) (s ws : str) :
  Forall (fun c => p c = true) ws ->
  strip_by p (s ++ ws) = strip_by p s.
Proof.
  intros Hws. unfold strip_by.
  destruct (lstrip_by p s) as [|x t] eqn:E.
  - now rewrite (lstrip_by_nil p s ws Hws E).
  - rewrite lstrip_by_app by (rewrite E; discriminate).
    rewrite E, rev_app_distr, lstrip_by_all; [reflexivity|].
    now apply Forall_rev.
Qed.

Lemma strip_by_lead (p : char -> bool) (ws s : str) :
  Forall (fun c => p c = true) ws ->
  strip_by p (ws ++ s) = strip_by p s.
Proof. intros H. unfold strip_by. now rewrite lstrip_by_all. Qed.

(** [split(sep, 1)] cuts at the first occurrence of a one-character
    separator. *)
Lemma split1_go_first (c : N) (k v cur : str) :
  ~ In c k ->
  split1_go [c] cur (k ++ c :: v) = [rev cur ++ k; v].
Proof.
  revert cur. induction k as [|x k IH]; intros cur H.
  - cbn [app split1_go startswith]. rewrite N.eqb_refl. cbn [andb].
    rewrite app_nil_r. now destruct v.
  - cbn [app split1_go startswith].
    destruct (N.eqb_spec c x) as [->|Hne]; [exfalso; apply H; now left|].
    cbn [andb]. rewrite IH by (intros Hin; apply H; now right).
    cbn [rev]. now rewrite <- app_assoc.
Qed.

Lemma dict_get_set_same {V} (d : list (str * V)) (key : str) (v default : V) :
  dict_get (dict_set d key v) key default = v.
Proof.
  induction d as [|[k v0] d IH]; cbn [dict_set dict_get].
  - now rewrite eqb_refl.
  - destruct (Str.eqb k key) eqn:E; cbn [dict_get]; rewrite E; [reflexivity | exact IH].
Qed.

Lemma dict_get_set_other {V} (d : list (str * V)) (key key' : str) (v default : V) :
  key' <> key ->
  dict_get (dict_set d key v) key' default = dict_get d key' default.
Proof.
  intros Hne. induction d as [|[k v0] d IH]; cbn [dict_set dict_get].
  - replace (Str.eqb key key') with false; [reflexivity|].
    symmetry. apply eqb_neq. congruence.
  - destruct (Str.eqb k key) eqn:E; cbn [dict_get].
    + apply eqb_eq in E. subst k.
      replace (Str.eqb key key') with false; [reflexivity|].
      symmetry. apply eqb_neq. congruence.
    + destruct (Str.eqb k key'); [reflexivity | exact IH].
Qed.

(** ** Reading the descriptor *)

(** X1.  [get_distro] never raises and changes nothing: the unpacking of
    [key, value] cannot fail, because a line that holds [=] still holds it
    after [strip()]; the result is [None] exactly when the file does not
    exist. *)
Theorem get_distro_never_raises :
  forall (w : World) (st : State),
  exists distro,
    run w st OSUtils.get_distro = (Return distro, st) /\
    (distro = None <-> files w OSUtils.os_release_path = None).
Proof.
  intros w st. unfold run, OSUtils.get_distro, try_except, bind, open_.
  destruct (files w OSUtils.os_release_path) as [text|].
  - destruct (read_lines_returns (file_lines text) [] w st) as [d ->].
    exists (Some d). split; [reflexivity | split; discriminate].
  - exists None. now split.
Qed.

Lemma read_line_sets (d : list (str * str)) (line key value : str)
      (w : World) (st : State) :
  strip line = key ++ 61%N :: value ->
  ~ In 61%N key ->
  OSUtils.read_line d line w st =
  (Return (dict_set d key (strip_chars value [34%N])), st).
Proof.
  intros Hs Hk. unfold OSUtils.read_line.
  assert (Hin : In 61%N line).
  { apply (In_strip_by_inv isspace). fold (strip line). rewrite Hs.
    apply in_or_app. right. now left. }
  assert (Hc : contains (lit "=") line = true)
    by (apply (contains_char 61%N); exact Hin).
  rewrite Hc. unfold split1. rewrite Hs. change (lit "=") with [61%N].
  rewrite (split1_go_first 61%N key value [] Hk).
  reflexivity.
Qed.

(** X2.  A line that, once stripped, reads [key=value] with no [=] in the
    key sets [key] to the value without its surrounding double quotes: the
    cut is at the first [=], later ones belong to the value, the entry
    replaces an earlier one of the same key, and other keys keep their
    values. *)
Theorem read_line_key_value :
  forall (d : list (str * str)) (line key value : str) (w : World) (st : State),
    strip line = key ++ 61%N :: value ->
    ~ In 61%N key ->
    exists d',
      run w st (OSUtils.read_line d line) = (Return d', st) /\
      (forall default, dict_get d' key default = strip_chars value [34%N]) /\
      (forall key' default, key' <> key ->
                            dict_get d' key' default = dict_get d key' default).
Proof.
  intros d line key value w st Hs Hk.
  exists (dict_set d key (strip_chars value [34%N])).
  split; [|split].
  - now apply read_line_sets.
  - intros default. apply dict_get_set_same.
  - intros key' default Hne. now apply dict_get_set_other.
Qed.

Lemma read_line_key_value_witness :
  exists d',
    run (Demo.host Demo.root [] [] [] VNone) initial
        (OSUtils.read_line [(lit "ID", lit "debian")]
           (lit "ID=" ++ [34%N] ++ lit "a=b" ++ [34%N; 10%N])) = (Return d', initial) /\
    dict_get d' (lit "ID") [] = lit "a=b".
Proof.
  destruct (read_line_key_value
              [(lit "ID", lit "debian")]
              (lit "ID=" ++ [34%N] ++ lit "a=b" ++ [34%N; 10%N])
              (lit "ID") ([34%N] ++ lit "a=b" ++ [34%N])
              (Demo.host Demo.root [] [] [] VNone) initial)
    as [d' [Hrun [Hget _]]].
  - reflexivity.
  - intros H. simpl in H. repeat (destruct H as [H | H]; [discriminate|]).
    contradiction.
  - exists d'. split; [exact Hrun | exact (Hget [])].
Defined.

(** ** Choosing the backend *)

(** The test of a family, once the descriptor has been read. *)
Lemma id_has_any_given (keywords : list str) (w : World) (st : State)
      (distro : option (list (str * str))) :
  OSUtils.get_distro w st = (Return distro, st) ->
  OSUtils.id_has_any keywords w st =
  (Return match distro with
          | None => false
          | Some [] => false
          | Some ((_ :: _) as d) =>
              existsb (fun k => contains k (OSUtils.id_lower w d)) keywords
          end, st).
Proof.
  intros H. unfold OSUtils.id_has_any, bind, ask, ret. now rewrite H.
Qed.

Lemma get_backend_given (w : World) (st : State)
      (distro : option (list (str * str))) :
  OSUtils.get_distro w st = (Return distro, st) ->
  PackageManager._get_backend w st =
  let test keywords :=
    match distro with
    | None => false
    | Some [] => false
    | Some ((_ :: _) as d) =>
        existsb (fun k => contains k (OSUtils.id_lower w d)) keywords
    end in
  if test [lit "debian"; lit "ubuntu"] then (Return APT, st)
  else if test [lit "rhel"; lit "centos"; lit "fedora"] then (Return DNF, st)
  else if test [lit "arch"] then (Return Pacman, st)
  else (Raise (UnsupportedDistributionError msg_unsupported_distribution), st).
Proof.
  intros H. cbv zeta.
  unfold PackageManager._get_backend, bind, ret, raise,
    OSUtils.is_debian_based, OSUtils.is_redhat_based, OSUtils.is_arch_based.
  rewrite (id_has_any_given [lit "debian"; lit "ubuntu"] w st distro H).
  destruct distro as [[|kv d]|]; cbv iota.
  - now rewrite !(id_has_any_given _ w st (Some []) H).
  - destruct (existsb _ [lit "debian"; lit "ubuntu"]); [reflexivity|].
    rewrite (id_has_any_given [lit "rhel"; lit "centos"; lit "fedora"] w st _ H).
    destruct (existsb _ [lit "rhel"; lit "centos"; lit "fedora"]); [reflexivity|].
    rewrite (id_has_any_given [lit "arch"] w st _ H).
    now destruct (existsb _ [lit "arch"]).
  - now rewrite !(id_has_any_given _ w st None H).
Qed.

(** X3.  On a host whose descriptor has at least one entry, the facade is
    built from the lower-cased [ID] alone, the first matching test
    deciding: APT if it mentions [debian] or [ubuntu]; else DNF if it
    mentions [rhel], [centos] or [fedora]; else Pacman if it mentions
    [arch]; else [UnsupportedDistributionError].  No command is started
    and nothing is printed. *)
Theorem construction_by_id :
  forall (w : World) (st : State) (d : list (str * str)),
    run w st OSUtils.get_distro = (Return (Some d), st) ->
    d <> [] ->
    let id := OSUtils.id_lower w d in
    run w st PackageManager.__init__ =
      if contains (lit "debian") id || contains (lit "ubuntu") id
      then (Return {| PackageManager.backend := APT |}, st)
      else if contains (lit "rhel") id || contains (lit "centos") id
                 || contains (lit "fedora") id
      then (Return {| PackageManager.backend := DNF |}, st)
      else if contains (lit "arch") id
      then (Return {| PackageManager.backend := Pacman |}, st)
      else (Raise (UnsupportedDistributionError msg_unsupported_distribution), st).
Proof.
  intros w st d Hd Hne id. subst id. unfold run in *.
  unfold PackageManager.__init__, bind.
  rewrite (get_backend_given w st (Some d) Hd). cbv zeta.
  destruct d as [|kv d]; [congruence|].
  cbn [existsb]. rewrite !orb_false_r, <- orb_assoc.
  destruct (contains (lit "debian") _ || contains (lit "ubuntu") _); [reflexivity|].
  destruct (contains (lit "rhel") _ || (contains (lit "centos") _
                                        || contains (lit "fedora") _));
    [reflexivity|].
  now destruct (contains (lit "arch") _).
Qed.

Lemma construction_by_id_witness :
  run (Samples.ubuntu Demo.user [] VNone) initial PackageManager.__init__ =
    (Return {| PackageManager.backend := APT |}, initial).
Proof.
  refine (construction_by_id (Samples.ubuntu Demo.user [] VNone) initial
            [(lit "NAME", lit "Ubuntu"); (lit "ID", lit "ubuntu")] _ _).
  - reflexivity.
  - discriminate.
Defined.

Lemma contains_nil (k : str) : k <> [] -> contains k [] = false.
Proof. now destruct k. Qed.

(** X4.  A descriptor that has no [ID] key, an empty one included, is
    unsupported: constructing the facade raises
    [UnsupportedDistributionError]. *)
Theorem descriptor_without_id_is_unsupported :
  forall (w : World) (st : State) (d : list (str * str)),
    run w st OSUtils.get_distro = (Return (Some d), st) ->
    (forall v, ~ In (lit "ID", v) d) ->
    run w st PackageManager.__init__ =
      (Raise (UnsupportedDistributionError msg_unsupported_distribution), st).
Proof.
  intros w st d Hd Hid. unfold run in *.
  unfold PackageManager.__init__, bind.
  rewrite (get_backend_given w st (Some d) Hd). cbv zeta.
  destruct d as [|kv d]; [reflexivity|].
  unfold OSUtils.id_lower.
  rewrite (dict_get_absent (kv :: d) (lit "ID") [] Hid).
  reflexivity.
Qed.

Lemma descriptor_without_id_witness :
  run (Demo.host Demo.root [(lit "/etc/os-release", lit "NAME=Plan9
")] [] [] VNone)
      initial PackageManager.__init__ =
    (Raise (UnsupportedDistributionError msg_unsupported_distribution), initial).
Proof.
  apply (descriptor_without_id_is_unsupported _ initial
           [(lit "NAME", lit "Plan9")]).
  - reflexivity.
  - intros v [H | H]; [discriminate | contradiction].
Defined.


Lemma file_lines_go_chars (s cur line : str) :
  In line (file_lines_go cur s) ->
  forall c, In c line -> In c cur \/ In c s.
Proof.
  revert cur. induction s as [|x s IH]; intros cur H c Hc.
  - cbn [file_lines_go] in H. destruct cur as [|y cur]; [contradiction|].
    destruct H as [<- | []]. left. now apply in_rev.
  - cbn [file_lines_go] in H. destruct (N.eqb x 10).
    + destruct H as [<- | H].
      * apply in_rev in Hc. destruct Hc as [<- | Hc]; [right; now left | now left].
      * destruct (IH [] H c Hc) as [[] | Hs]. right. now right.
    + destruct (IH (x :: cur) H c Hc) as [[<- | Hcur] | Hs].
      * right. now left.
      * now left.
      * right. now right.
Qed.

Lemma read_lines_skips (lines : list str) (d : list (str * str))
      (w : World) (st : State) :
  (forall line, In line lines -> ~ In 61%N line) ->
  OSUtils.read_lines d lines w st = (Return d, st).
Proof.
  revert d. induction lines as [|line rest IH]; intros d H; [reflexivity|].
  cbn [OSUtils.read_lines]. unfold bind, OSUtils.read_line.
  replace (contains (lit "=") line) with false.
  - apply IH. intros l Hl. apply H. now right.
  - symmetry. destruct (contains (lit "=") line) eqn:E; [|reflexivity].
    apply (contains_char 61%N) in E. exfalso. apply (H line); [now left | exact E].
Qed.

(** X5.  A descriptor file in which no [=] occurs, the empty file included,
    gives the empty dict, and the facade cannot be built:
    [UnsupportedDistributionError]. *)
Theorem descriptor_without_assignment_is_unsupported :
  forall (w : World) (st : State) (text : str),
    files w OSUtils.os_release_path = Some text ->
    ~ In 61%N text ->
    run w st OSUtils.get_distro = (Return (Some []), st) /\
    run w st PackageManager.__init__ =
      (Raise (UnsupportedDistributionError msg_unsupported_distribution), st).
Proof.
  intros w st text Hf Hno. unfold run.
  assert (Hd : OSUtils.get_distro w st = (Return (Some []), st)).
  { unfold OSUtils.get_distro, try_except, bind, open_. rewrite Hf.
    rewrite read_lines_skips; [reflexivity|].
    intros line Hl Hc. apply Hno.
    destruct (file_lines_go_chars text [] line Hl 61%N Hc) as [[] | H].
    exact H. }
  split; [exact Hd|].
  unfold PackageManager.__init__, bind.
  now rewrite (get_backend_given w st (Some []) Hd).
Qed.

Lemma descriptor_without_assignment_witness :
  run (Demo.host Demo.root [(lit "/etc/os-release", lit "Ubuntu 22.04 LTS
")] [] [] VNone)
      initial PackageManager.__init__ =
    (Raise (UnsupportedDistributionError msg_unsupported_distribution), initial).
Proof.
  refine (proj2 (descriptor_without_assignment_is_unsupported
                   _ initial (lit "Ubuntu 22.04 LTS
") _ _)).
  - reflexivity.
  - intros H. simpl in H. repeat (destruct H as [H | H]; [discriminate|]).
    contradiction.
Defined.

(** ** The backends' commands *)

Lemma install_cmd_argv (w : World) (b : BackendClass) (name : str)
      (version : option str) :
  argv_of (match b with
           | APT => APTBackend.install_cmd
           | DNF => DNFBackend.install_cmd
           | Pacman => PacmanBackend.install_cmd
           end w (VStr name) (version_value version)) =
  Some (install_argv b name version).
Proof.
  destruct b, version as [[|c v]|];
    unfold APTBackend.install_cmd, DNFBackend.install_cmd,
           PacmanBackend.install_cmd, version_value, versioned,
           install_argv, install_token, install_words, version_sep;
    cbv zeta; cbn [truthy format]; apply argv_of_token.
Qed.

Lemma invoke_call_argv (w : World) (st : State) (b : BackendClass) (c : MutatingCall) :
  exists cmd,
    invoke b c w st = subprocess_run cmd true false w st /\
    argv_of cmd = Some (call_argv b c).
Proof.
  destruct c as [name version | name | |].
  - exists (match b with
            | APT => APTBackend.install_cmd
            | DNF => DNFBackend.install_cmd
            | Pacman => PacmanBackend.install_cmd
            end w (VStr name) (version_value version)).
    split; [now destruct b | apply install_cmd_argv].
  - exists (words (remove_words b) ++ [VStr name]).
    split; [now destruct b | apply argv_of_token].
  - exists (words (update_words b)).
    split; [now destruct b | apply argv_of_plain].
  - exists (words (upgrade_words b)).
    split; [now destruct b | apply argv_of_plain].
Qed.

Lemma invoke_outcome (w : World) (st : State) (b : BackendClass) (c : MutatingCall) :
  invoke b c w st =
  (if Z.eqb (exit_status (run_process w (spawned st) (call_argv b c))) 0
   then Return {| args := call_argv b c;
                  returncode := exit_status (run_process w (spawned st) (call_argv b c));
                  stdout := VNone; stderr := VNone |}
   else Raise (CalledProcessError
                 (exit_status (run_process w (spawned st) (call_argv b c)))
                 (call_argv b c) VNone VNone),
   started st (call_argv b c)).
Proof.
  destruct (invoke_call_argv w st b c) as [cmd [-> Ha]].
  rewrite (run_checked w st cmd _ Ha). cbv zeta.
  now destruct (Z.eqb _ 0).
Qed.

(** X6.  What each state-changing call of each backend does: it starts
    exactly the command of the table [call_argv] (a version qualifies the
    package only when it is not empty), returns a result with return code
    0 and no captured streams when the command exits with 0, and raises
    [CalledProcessError] otherwise. *)
Theorem mutating_call_outcome :
  forall (w : World) (st : State) (b : BackendClass) (c : MutatingCall),
    let a := call_argv b c in
    let status := exit_status (run_process w (spawned st) a) in
    run w st (invoke b c) =
      (if Z.eqb status 0
       then Return {| args := a; returncode := status;
                      stdout := VNone; stderr := VNone |}
       else Raise (CalledProcessError status a VNone VNone),
       started st a).
Proof.
  intros w st b c a status. subst a status. apply invoke_outcome.
Qed.

(** X7.  Every state-changing command of every backend runs under [sudo];
    the read-only ones ([search], [list_installed], [resolve]) start one
    command that is not under [sudo], print nothing and ask for no
    privilege. *)
Theorem sudo_only_for_mutating_calls :
  forall (w : World) (st : State) (b : BackendClass),
    (forall c : MutatingCall,
        exists rest, snd (run w st (invoke b c)) = started st (lit "sudo" :: rest)) /\
    (forall term : str,
        exists a,
          hd [] a <> lit "sudo" /\
          snd (run w st (PackageManager.search {| PackageManager.backend := b |}
                                               (VStr term))) = started st a) /\
    (exists a,
        hd [] a <> lit "sudo" /\
        snd (run w st (PackageManager.list_installed
                         {| PackageManager.backend := b |})) = started st a) /\
    (forall package : str,
        exists a,
          hd [] a <> lit "sudo" /\
          snd (run w st (DependencyResolver.resolve
                           {| PackageManager.backend := b |} (VStr package))) =
            started st a).
Proof.
  intros w st b. repeat split.
  - intros c. unfold run.
    destruct (invoke_call_argv w st b c) as [cmd [-> Ha]].
    rewrite (spawned_run w st cmd _ true false Ha).
    destruct b, c as [name version | name | |]; now eexists.
  - intros term. exists (argv (search_words b) term). split.
    + now destruct b.
    + unfold run, PackageManager.search. cbn [PackageManager.backend].
      destruct b; cbn [methods_of PackageManagerBackend.search
                       APTBackend.methods DNFBackend.methods PacmanBackend.methods];
        unfold APTBackend.search, DNFBackend.search, PacmanBackend.search;
        now rewrite (run_captured w st _ _ (argv_of_token _ term)).
  - exists (map lit (list_words b)). split.
    + now destruct b.
    + unfold run, PackageManager.list_installed. cbn [PackageManager.backend].
      destruct b; cbn [methods_of PackageManagerBackend.list_installed
                       APTBackend.methods DNFBackend.methods PacmanBackend.methods];
        unfold APTBackend.list_installed, DNFBackend.list_installed,
               PacmanBackend.list_installed;
        now rewrite (run_captured w st _ _ (argv_of_plain _)).
  - intros package. exists (argv (depends_words b) package). split.
    + now destruct b.
    + unfold run, DependencyResolver.resolve. cbn [PackageManager.backend].
      destruct b;
        unfold DependencyResolver._resolve_apt, DependencyResolver._resolve_dnf,
               DependencyResolver._resolve_pacman, bind;
        rewrite (run_uncheck_captured w st _ _ (argv_of_token _ package));
        cbv zeta; cbn [stdout DependencyResolver.text_of]; unfold ret at 1;
        [ now rewrite scan_lines_returns | reflexivity | reflexivity ].
Qed.

(** ** The facade as root *)

Lemma facade_call_root (w : World) (st : State) (pm : PackageManager.t)
      (c : MutatingCall) :
  getuid w = Some 0%Z ->
  facade_call pm c w st = invoke (PackageManager.backend pm) c w st.
Proof.
  intros Hroot.
  destruct c; unfold facade_call, PackageManager.install, PackageManager.remove,
    PackageManager.update, PackageManager.upgrade, bind;
    now rewrite (check_admin_root w st Hroot).
Qed.

(** X8.  Run as root, the facade's [install], [remove], [update] and
    [upgrade] are the bound backend's: same command, same result or error,
    nothing printed. *)
Theorem facade_passes_through_as_root :
  forall (w : World) (st : State) (pm : PackageManager.t) (c : MutatingCall),
    getuid w = Some 0%Z ->
    run w st (facade_call pm c) = run w st (invoke (PackageManager.backend pm) c).
Proof. intros w st pm c Hroot. now apply facade_call_root. Qed.

Lemma facade_passes_through_witness :
  run (Demo.host Demo.root [] [] [] VNone) initial
      (facade_call Demo.apt (CallRemove (lit "apache2"))) =
  run (Demo.host Demo.root [] [] [] VNone) initial
      (invoke APT (CallRemove (lit "apache2"))).
Proof.
  apply (facade_passes_through_as_root (Demo.host Demo.root [] [] [] VNone)).
  reflexivity.
Defined.

(** As root on a host where every command succeeds, a facade call returns
    and has started its command. *)
Lemma facade_call_succeeds (w : World) (st : State) (pm : PackageManager.t)
      (c : MutatingCall) :
  getuid w = Some 0%Z ->
  all_succeed w ->
  exists r, facade_call pm c w st =
            (Return r, started st (call_argv (PackageManager.backend pm) c)).
Proof.
  intros Hroot Hall.
  rewrite (facade_call_root w st pm c Hroot), invoke_outcome, Hall.
  now eexists.
Qed.

Lemma started_all_cons (st : State) (a : list str) (cmds : list (list str)) :
  started_all (started st a) cmds = started_all st (a :: cmds).
Proof.
  unfold started_all, started. cbn [spawned printed].
  now rewrite <- app_assoc.
Qed.

Lemma started_all_nil (st : State) : started_all st [] = st.
Proof.
  unfold started_all. rewrite app_nil_r. now destruct st.
Qed.

(** ** Batch install, beyond the malformed entry *)

Lemma install_entry_reads (w : World) (st : State) (pm : PackageManager.t)
      (entry : value) (spec : str * option str) :
  reads_as entry spec ->
  PackageManager.install_entry pm entry w st =
  match facade_call pm (CallInstall (fst spec) (snd spec)) w st with
  | (Return _, st') => (Return tt, st')
  | (Raise e, st') => (Raise e, st')
  end.
Proof.
  intros [e [-> [Hn Hv]]].
  unfold PackageManager.install_entry, bind, py_get, ret.
  rewrite Hn, Hv. reflexivity.
Qed.

Lemma batch_prefix (w : World) (st st0 : State) (pm : PackageManager.t)
      (path : str) (config : list (str * value)) (entries : list value) :
  getuid w = Some 0%Z ->
  ConfigLoader.load path w st = (Return (VDict config), st0) ->
  dict_get config (lit "packages") (VList []) = VList entries ->
  PackageManager.batch_install pm path w st =
  for_each entries (PackageManager.install_entry pm) w st0.
Proof.
  intros Hroot Hload Hpk.
  unfold PackageManager.batch_install, bind.
  rewrite (check_admin_root w st Hroot), Hload.
  unfold py_get at 1, ret at 1. rewrite Hpk. reflexivity.
Qed.

Lemma for_each_entries_succeed (w : World) (pm : PackageManager.t)
      (entries : list value) (specs : list (str * option str)) :
  getuid w = Some 0%Z ->
  all_succeed w ->
  Forall2 reads_as entries specs ->
  forall st,
    for_each entries (PackageManager.install_entry pm) w st =
    (Return tt,
     started_all st (map (fun spec => install_argv (PackageManager.backend pm)
                                                   (fst spec) (snd spec)) specs)).
Proof.
  intros Hroot Hall. induction 1 as [|entry spec entries specs Hr _ IH]; intros st.
  - cbn [map for_each]. unfold ret. now rewrite started_all_nil.
  - rewrite for_each_cons, (install_entry_reads w st pm entry spec Hr).
    destruct (facade_call_succeeds w st pm (CallInstall (fst spec) (snd spec))
                                   Hroot Hall) as [r ->].
    rewrite IH. cbn [map call_argv]. now rewrite started_all_cons.
Qed.

(** X9.  Run as root on a host where every command succeeds,
    [batch_install] of a configuration whose [packages] entries read as
    names with optional versions installs them one by one in file order:
    it returns, and the commands started are the entries' install commands
    in that order. *)
Theorem batch_install_in_file_order :
  forall (w : World) (st st0 : State) (pm : PackageManager.t) (path : str)
         (config : list (str * value)) (entries : list value)
         (specs : list (str * option str)),
    getuid w = Some 0%Z ->
    all_succeed w ->
    run w st (ConfigLoader.load path) = (Return (VDict config), st0) ->
    dict_get config (lit "packages") (VList []) = VList entries ->
    Forall2 reads_as entries specs ->
    run w st (PackageManager.batch_install pm path) =
      (Return tt,
       started_all st0
         (map (fun spec => install_argv (PackageManager.backend pm)
                                        (fst spec) (snd spec)) specs)).
Proof.
  intros w st st0 pm path config entries specs Hroot Hall Hload Hpk Hreads.
  unfold run in *.
  rewrite (batch_prefix w st st0 pm path config entries Hroot Hload Hpk).
  now apply for_each_entries_succeed.
Qed.

Lemma batch_install_in_file_order_witness :
  run (Samples.ubuntu Demo.root [] Samples.two_packages) initial
      (PackageManager.batch_install Demo.apt (lit "packages.yaml")) =
    (Return tt,
     {| spawned := [argv ["sudo"; "apt"; "install"; "-y"]%string (lit "git");
                    argv ["sudo"; "apt"; "install"; "-y"]%string (lit "docker=5.0")];
        printed := [] |}).
Proof.
  apply (batch_install_in_file_order
           (Samples.ubuntu Demo.root [] Samples.two_packages) initial initial
           Demo.apt (lit "packages.yaml")
           [(lit "packages",
             VList [entry_of (lit "git", None);
                    entry_of (lit "docker", Some (lit "5.0"))])]
           [entry_of (lit "git", None); entry_of (lit "docker", Some (lit "5.0"))]
           [(lit "git", None); (lit "docker", Some (lit "5.0"))]).
  - reflexivity.
  - intros history a. reflexivity.
  - reflexivity.
  - reflexivity.
  - repeat constructor; eexists; (split; [reflexivity | split; reflexivity]).
Defined.

(** X10.  [batch_install] is fail-fast and does not wrap the error: when
    the entries before one have installed and the facade's install of that
    one raises, [batch_install] raises the same error in the state that
    install left, and attempts no later entry. *)
Theorem batch_install_fail_fast :
  forall (w : World) (st st0 st1 st2 : State) (pm : PackageManager.t) (path : str)
         (config : list (str * value)) (before after : list value)
         (entry : value) (spec : str * option str) (e : exn),
    getuid w = Some 0%Z ->
    run w st (ConfigLoader.load path) = (Return (VDict config), st0) ->
    dict_get config (lit "packages") (VList []) =
      VList (before ++ entry :: after) ->
    run w st0 (for_each before (PackageManager.install_entry pm)) = (Return tt, st1) ->
    reads_as entry spec ->
    run w st1 (PackageManager.install pm (VStr (fst spec))
                                      (version_value (snd spec))) = (Raise e, st2) ->
    run w st (PackageManager.batch_install pm path) = (Raise e, st2).
Proof.
  intros w st st0 st1 st2 pm path config before after entry spec e
         Hroot Hload Hpk Hbefore Hreads Hfail.
  unfold run in *.
  rewrite (batch_prefix w st st0 pm path config _ Hroot Hload Hpk).
  rewrite (for_each_app before (entry :: after) _ w st0 st1 Hbefore).
  rewrite for_each_cons, (install_entry_reads w st1 pm entry spec Hreads).
  cbn [facade_call]. now rewrite Hfail.
Qed.

Lemma batch_install_fail_fast_witness :
  run (Samples.ubuntu Demo.root [lit "git"] Samples.two_packages) initial
      (PackageManager.batch_install Demo.apt (lit "packages.yaml")) =
    (Raise (CalledProcessError 100
              (argv ["sudo"; "apt"; "install"; "-y"]%string (lit "git"))
              VNone VNone),
     started initial (argv ["sudo"; "apt"; "install"; "-y"]%string (lit "git"))).
Proof.
  apply (batch_install_fail_fast
           (Samples.ubuntu Demo.root [lit "git"] Samples.two_packages)
           initial initial initial _ Demo.apt (lit "packages.yaml")
           [(lit "packages",
             VList [entry_of (lit "git", None);
                    entry_of (lit "docker", Some (lit "5.0"))])]
           [] [entry_of (lit "docker", Some (lit "5.0"))]
           (entry_of (lit "git", None)) (lit "git", None)).
  - reflexivity.
  - reflexivity.
  - reflexivity.
  - reflexivity.
  - eexists; (split; [reflexivity | split; reflexivity]).
  - reflexivity.
Defined.

(** X11.  Degenerate configurations, run as root: a parsed value that is
    not a dict (an empty YAML file parses to [None]) makes [batch_install]
    raise [AttributeError]; a dict without a [packages] key installs
    nothing and returns; a [packages] key holding [None] raises
    [TypeError].  In each case no command is started. *)
Theorem batch_install_degenerate_configs :
  forall (w : World) (st st0 : State) (pm : PackageManager.t) (path : str)
         (config : value),
    getuid w = Some 0%Z ->
    run w st (ConfigLoader.load path) = (Return config, st0) ->
    ((forall d, config <> VDict d) ->
     run w st (PackageManager.batch_install pm path) = (Raise AttributeError, st0)) /\
    (forall d, config = VDict d ->
               (forall v, ~ In (lit "packages", v) d) ->
               run w st (PackageManager.batch_install pm path) = (Return tt, st0)) /\
    (forall d, config = VDict d ->
               dict_get d (lit "packages") (VList []) = VNone ->
               run w st (PackageManager.batch_install pm path) = (Raise TypeError, st0)).
Proof.
  intros w st st0 pm path config Hroot Hload. unfold run in *.
  repeat split.
  - intros Hnd. unfold PackageManager.batch_install, bind.
    rewrite (check_admin_root w st Hroot), Hload.
    destruct config as [ | | | | |d]; try reflexivity.
    exfalso. now apply (Hnd d).
  - intros d -> Hno.
    rewrite (batch_prefix w st st0 pm path d [] Hroot Hload); [reflexivity|].
    now apply dict_get_absent.
  - intros d -> Hnone. unfold PackageManager.batch_install, bind.
    rewrite (check_admin_root w st Hroot), Hload.
    unfold py_get at 1, ret at 1. now rewrite Hnone.
Qed.

Lemma batch_install_degenerate_witness :
  run (Samples.ubuntu Demo.root [] VNone) initial
      (PackageManager.batch_install Demo.apt (lit "packages.yaml")) =
    (Raise AttributeError, initial).
Proof.
  refine (proj1 (batch_install_degenerate_configs
                   (Samples.ubuntu Demo.root [] VNone) initial initial Demo.apt
                   (lit "packages.yaml") VNone _ _) _).
  - reflexivity.
  - reflexivity.
  - discriminate.
Defined.

(** ** Transactions, beyond the three-step example *)













(** ** Resolving dependencies, beyond the de-duplication *)

Lemma startswith_app (a b m : str) :
  startswith a m = true -> startswith (a ++ b) m = true.
Proof.
  revert a. induction m as [|x m IH]; intros a H; [now destruct (a ++ b)|].
  destruct a as [|y a]; [discriminate|].
  cbn [app startswith] in *. apply andb_true_iff in H as [-> H].
  now apply IH.
Qed.

Lemma contains_app_l (a b m : str) :
  contains m a = true -> contains m (a ++ b) = true.
Proof.
  induction a as [|y a IH]; intros H.
  - destruct m; [now destruct b | discriminate].
  - cbn [app contains] in *. apply orb_true_iff in H as [H | H].
    + pose proof (startswith_app (y :: a) b m H) as S.
      cbn [app] in S. now rewrite S.
    + rewrite (IH H). apply orb_true_r.
Qed.

Lemma contains_app_r (a b m : str) :
  contains m b = true -> contains m (a ++ b) = true.
Proof.
  intros H. induction a as [|y a IH]; [exact H|].
  cbn [app contains]. rewrite IH. apply orb_true_r.
Qed.

(** A piece of a split at a one-character separator is a part of the
    text. *)
Lemma split_go_piece (c : N) (s cur piece : str) :
  In piece (split_go [c] 0 cur s) ->
  exists pre post, rev cur ++ s = pre ++ piece ++ post.
Proof.
  revert cur. induction s as [|x s IH]; intros cur H.
  - destruct H as [<- | []]. exists [], []. now rewrite !app_nil_r.
  - cbn [split_go] in H. destruct (startswith (x :: s) [c]).
    + cbn [List.length Nat.sub] in H. destruct H as [<- | H].
      * now exists [], (x :: s).
      * destruct (IH [] H) as [pre [post E]]. cbn [rev app] in E.
        exists (rev cur ++ x :: pre), post.
        rewrite E, <- app_assoc. reflexivity.
    + destruct (IH (x :: cur) H) as [pre [post E]].
      exists pre, post. rewrite <- E. cbn [rev]. now rewrite <- app_assoc.
Qed.

Lemma lines_without_marker (out line : str) :
  contains depends_marker out = false ->
  In line (split out [10%N]) ->
  contains depends_marker line = false.
Proof.
  intros Hout Hin.
  destruct (split_go_piece 10%N out [] line Hin) as [pre [post E]].
  cbn [rev app] in E.
  destruct (contains depends_marker line) eqn:C; [|reflexivity].
  rewrite E in Hout.
  now rewrite (contains_app_r pre (line ++ post) _ (contains_app_l line post _ C))
    in Hout.
Qed.

Lemma filter_none (p : str -> bool) (l : list str) :
  (forall x, In x l -> p x = false) -> filter p l = [].
Proof.
  induction l as [|x l IH]; intros H; [reflexivity|].
  cbn [filter]. rewrite (H x) by now left.
  apply IH. intros y Hy. apply H. now right.
Qed.

Lemma resolve_apt_run (w : World) (st : State) (package : str) :
  DependencyResolver._resolve_apt (VStr package) w st =
  (Return (keep_first
             (extracted (out_text (run_process w (spawned st)
                                     (argv ["apt-cache"; "depends"]%string package))))),
   started st (argv ["apt-cache"; "depends"]%string package)).
Proof.
  unfold DependencyResolver._resolve_apt, bind.
  rewrite (run_uncheck_captured w st _ _ (argv_of_token _ package)).
  cbv zeta. cbn [stdout DependencyResolver.text_of]. unfold ret at 1.
  now rewrite scan_lines_returns, fold_note_nil.
Qed.

(** X15.  When the output of [apt-cache depends] nowhere holds the marker
    (as under a locale that prints another word for it, or for an unknown
    package), [resolve] under APT returns the empty list; it started the
    one query and raised nothing. *)
Theorem resolve_apt_without_marker :
  forall (w : World) (st : State) (package : str),
    contains depends_marker
      (out_text (run_process w (spawned st)
                   (argv ["apt-cache"; "depends"]%string package))) = false ->
    run w st (DependencyResolver.resolve {| PackageManager.backend := APT |}
                                         (VStr package)) =
      (Return [], started st (argv ["apt-cache"; "depends"]%string package)).
Proof.
  intros w st package H. unfold run, DependencyResolver.resolve.
  cbn [PackageManager.backend]. rewrite resolve_apt_run.
  unfold extracted. rewrite filter_none; [reflexivity|].
  intros line Hl. now apply (lines_without_marker _ line H).
Qed.

Lemma resolve_apt_without_marker_witness :
  run (Demo.host Demo.user [] [] (lit "  Depends: libc6
") VNone) initial
      (DependencyResolver.resolve Demo.apt (VStr (lit "curl"))) =
    (Return [], started initial (argv ["apt-cache"; "depends"]%string (lit "curl"))).
Proof.
  apply (resolve_apt_without_marker
           (Demo.host Demo.user [] [] (lit "  Depends: libc6
") VNone) initial (lit "curl")).
  reflexivity.
Defined.

Lemma split_go_feed (l cur rest : str) :
  ~ In 10%N l ->
  split_go [10%N] 0 cur (l ++ 10%N :: rest) =
  (rev cur ++ l) :: split_go [10%N] 0 [] rest.
Proof.
  revert cur. induction l as [|x l IH]; intros cur H.
  - cbn [app split_go startswith]. rewrite app_nil_r.
    change (N.eqb 10 10) with true. cbn [andb].
    now destruct rest.
  - cbn [app split_go startswith].
    destruct (N.eqb_spec 10 x) as [<-|Hne]; [exfalso; apply H; now left|].
    cbn [andb]. rewrite IH by (intros Hin; apply H; now right).
    cbn [rev]. now rewrite <- app_assoc.
Qed.

Lemma split_unlines (lines : list str) :
  Forall (fun l => ~ In 10%N l) lines ->
  split (unlines lines) [10%N] = lines ++ [[]].
Proof.
  unfold split. induction 1 as [|l lines Hl _ IH]; [reflexivity|].
  cbn [unlines flat_map]. rewrite <- app_assoc. cbn [app].
  rewrite split_go_feed by assumption. cbn [rev app]. f_equal. exact IH.
Qed.

Lemma split_go_single (sep s cur : str) :
  contains sep s = false ->
  split_go sep 0 cur s = [rev cur ++ s].
Proof.
  revert cur. induction s as [|x s IH]; intros cur H.
  - cbn [split_go]. now rewrite app_nil_r.
  - cbn [split_go contains] in *. apply orb_false_iff in H as [-> H].
    rewrite (IH (x :: cur) H). cbn [rev]. now rewrite <- app_assoc.
Qed.

Lemma startswith_self (m s : str) : startswith (m ++ s) m = true.
Proof.
  induction m as [|x m IH]; [now destruct s|].
  cbn [app startswith]. now rewrite N.eqb_refl.
Qed.

Lemma split_go_skip (sep pre s cur : str) :
  split_go sep (List.length pre) cur (pre ++ s) = split_go sep 0 cur s.
Proof.
  induction pre as [|y pre IH]; [reflexivity|].
  cbn [List.length app split_go]. exact IH.
Qed.

(** At an occurrence of the separator a piece ends, and the scan resumes
    behind the separator. *)
Lemma split_go_hit (x : N) (sep' s cur : str) :
  split_go (x :: sep') 0 cur ((x :: sep') ++ s) =
  rev cur :: split_go (x :: sep') 0 [] s.
Proof.
  pose proof (startswith_self (x :: sep') s) as H.
  cbn [app] in *. cbn [split_go].
  match goal with
  | |- context [if ?b then _ else _] => replace b with true by (symmetry; exact H)
  end.
  cbn [List.length Nat.sub]. rewrite Nat.sub_0_r.
  now rewrite split_go_skip.
Qed.

Lemma split_go_marker (indent body cur : str) :
  ~ In 20381%N indent ->
  contains depends_marker body = false ->
  split_go depends_marker 0 cur (indent ++ depends_marker ++ body) =
  [rev cur ++ indent; body].
Proof.
  intros Hi Hb. revert cur. induction indent as [|x indent IH]; intros cur.
  - etransitivity; [exact (split_go_hit 20381%N [36182%N; 58%N] body cur)|].
    rewrite app_nil_r. f_equal.
    exact (split_go_single depends_marker body [] Hb).
  - assert (Hx : startswith (x :: indent ++ depends_marker ++ body)
                            depends_marker = false).
    { unfold depends_marker at 2. cbn [startswith].
      destruct (N.eqb_spec 20381 x) as [<-|Hne]; [exfalso; apply Hi; now left|].
      reflexivity. }
    cbn [app split_go]. rewrite Hx.
    rewrite IH by (intros Hin; apply Hi; now right).
    cbn [rev]. now rewrite <- app_assoc.
Qed.

Lemma marker_line_dep (item : str * str) :
  plain_item item ->
  contains depends_marker (marker_line item) = true /\
  dep_of (marker_line item) = strip (snd item) /\
  ~ In 10%N (marker_line item).
Proof.
  intros [Hi10 [Hi [Hb10 Hb]]]. unfold marker_line. repeat split.
  - apply contains_app_r, contains_app_l.
    unfold depends_marker. cbn [contains startswith].
    now rewrite !N.eqb_refl.
  - unfold dep_of, split. now rewrite (split_go_marker _ _ [] Hi Hb).
  - intros H. apply in_app_or in H as [H | H]; [contradiction|].
    apply in_app_or in H as [H | H]; [|contradiction].
    unfold depends_marker in H. cbn [In] in H.
    repeat (destruct H as [H | H]; [discriminate|]). contradiction.
Qed.

Lemma extracted_marker_lines (items : list (str * str)) :
  Forall plain_item items ->
  extracted (unlines (map marker_line items)) =
  map (fun item => strip (snd item)) items.
Proof.
  intros H. unfold extracted. rewrite split_unlines.
  - rewrite filter_app. cbn [filter]. change (contains depends_marker []) with false.
    cbv iota. rewrite app_nil_r.
    induction H as [|item items Hitem _ IH]; [reflexivity|].
    destruct (marker_line_dep item Hitem) as [Hc [Hd _]].
    cbn [map filter]. rewrite Hc. cbn [map]. now rewrite Hd, IH.
  - apply Forall_map. eapply Forall_impl; [|exact H].
    intros item Hitem. now destruct (marker_line_dep item Hitem) as [_ [_ Hn]].
Qed.

(** X16.  When the output of [apt-cache depends] is made of lines
    [indent 依赖: body] (indents without the marker's first character,
    bodies without the marker, neither with a line feed), [resolve] under
    APT returns the bodies stripped of surrounding whitespace, in order,
    each kept at its first occurrence. *)
Theorem resolve_apt_parses_marker_lines :
  forall (w : World) (st : State) (package : str) (items : list (str * str)),
    Forall plain_item items ->
    out_text (run_process w (spawned st)
                (argv ["apt-cache"; "depends"]%string package)) =
      unlines (map marker_line items) ->
    run w st (DependencyResolver.resolve {| PackageManager.backend := APT |}
                                         (VStr package)) =
      (Return (keep_first (map (fun item => strip (snd item)) items)),
       started st (argv ["apt-cache"; "depends"]%string package)).
Proof.
  intros w st package items Hitems Hout. unfold run, DependencyResolver.resolve.
  cbn [PackageManager.backend].
  now rewrite resolve_apt_run, Hout, extracted_marker_lines.
Qed.

Lemma resolve_apt_parses_witness :
  run (Demo.host Demo.user [] [] Demo.depends_output VNone) initial
      (DependencyResolver.resolve Demo.apt (VStr (lit "curl"))) =
    (Return [lit "libc6"; lit "zlib1g"],
     started initial (argv ["apt-cache"; "depends"]%string (lit "curl"))).
Proof.
  apply (resolve_apt_parses_marker_lines
           (Demo.host Demo.user [] [] Demo.depends_output VNone) initial
           (lit "curl")
           [(lit "  ", lit " libc6"); (lit "  ", lit " libc6");
            (lit "  ", lit " zlib1g")]).
  - repeat constructor; try reflexivity; cbn [fst snd]; intros H; simpl in H;
      repeat (destruct H as [H | H]; [discriminate|]); contradiction.
  - reflexivity.
Defined.

(** ** The main function *)

Lemma main_after_construction (w : World) (st st' : State) (pm : PackageManager.t) :
  PackageManager.__init__ w st = (Return pm, st') ->
  main w st =
  (PackageManager.install pm (VStr (lit "nginx")) VNone ;;;
   PackageManager.batch_install pm (lit "packages.yaml") ;;;
   Transaction.commit
     (Transaction.add_remove
        (Transaction.add_install
           (Transaction.add_install (Transaction.__init__ pm) (VStr (lit "git")) VNone)
           (VStr (lit "docker")) VNone)
        (VStr (lit "apache2")))) w st'.
Proof. intros H. unfold main. unfold bind at 1. now rewrite H. Qed.

(** X17.  On a host whose family is gentoo-like or unknown, [main] raises
    [UnsupportedDistributionError] before anything else: no command is
    started, nothing is printed. *)
Theorem main_on_unsupported_host :
  forall (w : World) (st : State) (f : Family),
    run w st family = (Return f, st) ->
    f = GentooLike \/ f = Unknown ->
    run w st main =
      (Raise (UnsupportedDistributionError msg_unsupported_distribution), st).
Proof.
  intros w st f Hf Hcase. unfold run in *.
  unfold main, PackageManager.__init__. unfold bind at 1. unfold bind at 1.
  rewrite (backend_of_family w st f Hf).
  now destruct Hcase as [-> | ->].
Qed.

Lemma main_on_unsupported_host_witness :
  run (Demo.host Demo.root [] [] [] VNone) initial main =
    (Raise (UnsupportedDistributionError msg_unsupported_distribution), initial).
Proof.
  apply (main_on_unsupported_host (Demo.host Demo.root [] [] [] VNone) initial Unknown).
  - reflexivity.
  - now right.
Defined.

(** X18.  On a supported host without root privilege, [main] ends at its
    first install with exit status 1: the facade has been built, the
    privilege message printed once, and no command started; the batch
    install and the transaction are never reached. *)
Theorem main_unprivileged_exits :
  forall (w : World) (st : State) (pm : PackageManager.t),
    run w st PackageManager.__init__ = (Return pm, st) ->
    getuid w <> Some 0%Z ->
    exits_unprivileged w st main.
Proof.
  intros w st pm Hpm Hu. unfold exits_unprivileged, run in *.
  rewrite (main_after_construction w st st pm Hpm).
  unfold bind at 1. unfold PackageManager.install. unfold bind at 1.
  pose proof (check_admin_unprivileged w st Hu) as C.
  unfold exits_unprivileged, run in C. now rewrite C.
Qed.

Lemma main_unprivileged_exits_witness :
  exits_unprivileged (Samples.ubuntu Demo.user [] Samples.two_packages) initial main.
Proof.
  apply (main_unprivileged_exits
           (Samples.ubuntu Demo.user [] Samples.two_packages) initial Demo.apt).
  - reflexivity.
  - discriminate.
Defined.

(** X19.  Run as root on a supported host where the install of [nginx]
    succeeds and there is no file [packages.yaml], [main] raises
    [FileNotFoundError] for that file after having installed [nginx]; the
    transaction is never reached. *)
Theorem main_without_config_file :
  forall (w : World) (st : State) (pm : PackageManager.t),
    run w st PackageManager.__init__ = (Return pm, st) ->
    getuid w = Some 0%Z ->
    exit_status (run_process w (spawned st)
                   (install_argv (PackageManager.backend pm) (lit "nginx") None)) = 0%Z ->
    files w (lit "packages.yaml") = None ->
    run w st main =
      (Raise (FileNotFoundError (lit "packages.yaml")),
       started st (install_argv (PackageManager.backend pm) (lit "nginx") None)).
Proof.
  intros w st pm Hpm Hroot Hok Hnone. unfold run in *.
  rewrite (main_after_construction w st st pm Hpm).
  unfold bind at 1.
  change (PackageManager.install pm (VStr (lit "nginx")) VNone)
    with (facade_call pm (CallInstall (lit "nginx") None)).
  rewrite (facade_call_root w st pm _ Hroot), invoke_outcome.
  cbn [call_argv]. rewrite Hok. cbn [Z.eqb].
  unfold bind at 1. unfold PackageManager.batch_install. unfold bind at 1.
  rewrite (check_admin_root w _ Hroot). unfold bind at 1.
  pose proof (load_missing w
                (started st (install_argv (PackageManager.backend pm) (lit "nginx") None))
                (lit "packages.yaml") Hnone) as L.
  unfold run in L. now rewrite L.
Qed.

Lemma main_without_config_file_witness :
  run (Demo.host Demo.root [(lit "/etc/os-release", Samples.ubuntu_release)]
                 [] [] VNone) initial main =
    (Raise (FileNotFoundError (lit "packages.yaml")),
     started initial (argv ["sudo"; "apt"; "install"; "-y"]%string (lit "nginx"))).
Proof.
  apply (main_without_config_file
           (Demo.host Demo.root [(lit "/etc/os-release", Samples.ubuntu_release)]
                      [] [] VNone) initial Demo.apt); reflexivity.
Defined.




(** ** The descriptor as a whole *)

Lemma file_lines_go_feed (l cur rest : str) :
  ~ In 10%N l ->
  file_lines_go cur (l ++ 10%N :: rest) =
  (rev cur ++ l ++ [10%N]) :: file_lines_go [] rest.
Proof.
  revert cur. induction l as [|x l IH]; intros cur H.
  - cbn [app file_lines_go]. change (N.eqb 10 10) with true. cbv iota.
    reflexivity.
  - cbn [app file_lines_go].
    destruct (N.eqb_spec x 10) as [->|Hne]; [exfalso; apply H; now left|].
    rewrite IH by (intros Hin; apply H; now right).
    cbn [rev]. now rewrite <- app_assoc.
Qed.

Lemma file_lines_unlines (lines : list str) :
  Forall (fun l => ~ In 10%N l) lines ->
  file_lines (unlines lines) = map (fun l => l ++ [10%N]) lines.
Proof.
  unfold file_lines. induction 1 as [|l lines Hl _ IH]; [reflexivity|].
  cbn [unlines flat_map map]. rewrite <- app_assoc. cbn [app].
  rewrite file_lines_go_feed by assumption. cbn [rev app]. f_equal. exact IH.
Qed.

Lemma read_lines_assignments (pairs : list (str * str)) (w : World) (st : State) :
  Forall tidy_assignment pairs ->
  forall d,
    OSUtils.read_lines d (map (fun l => l ++ [10%N]) (map assignment pairs)) w st =
    (Return (fold_left store pairs d), st).
Proof.
  induction 1 as [|kv pairs [Hk [_ Hs]] _ IH]; intros d; [reflexivity|].
  cbn [map OSUtils.read_lines fold_left]. unfold bind.
  match goal with
  | |- context [OSUtils.read_line d ?l w st] =>
      rewrite (read_line_sets d l (fst kv) (snd kv) w st)
  end.
  - apply IH.
  - unfold strip. rewrite strip_by_app by (repeat constructor). exact Hs.
  - exact Hk.
Qed.

(** X21.  For a descriptor file made of lines [key=value] (no [=] in a
    key, no whitespace around a line), [get_distro] returns the dict that
    takes the lines in order: each sets its key to its value without the
    surrounding double quotes, a repeated key keeping its place and taking
    the later value. *)
Theorem get_distro_reads_assignments :
  forall (w : World) (st : State) (pairs : list (str * str)),
    Forall tidy_assignment pairs ->
    files w OSUtils.os_release_path = Some (unlines (map assignment pairs)) ->
    run w st OSUtils.get_distro = (Return (Some (fold_left store pairs [])), st).
Proof.
  intros w st pairs Hp Hf. unfold run, OSUtils.get_distro, try_except, bind, open_.
  rewrite Hf, file_lines_unlines.
  - now rewrite (read_lines_assignments pairs w st Hp []).
  - apply Forall_map. eapply Forall_impl; [|exact Hp].
    now intros kv [_ [Hn _]].
Qed.

Lemma get_distro_reads_assignments_witness :
  run (Demo.host Demo.root
         [(lit "/etc/os-release",
           unlines [lit "ID=debian"; lit "ID=" ++ [34%N] ++ lit "ubuntu" ++ [34%N]])]
         [] [] VNone) initial OSUtils.get_distro =
    (Return (Some [(lit "ID", lit "ubuntu")]), initial).
Proof.
  apply (get_distro_reads_assignments
           (Demo.host Demo.root
              [(lit "/etc/os-release",
                unlines [lit "ID=debian";
                         lit "ID=" ++ [34%N] ++ lit "ubuntu" ++ [34%N]])]
              [] [] VNone) initial
           [(lit "ID", lit "debian");
            (lit "ID", [34%N] ++ lit "ubuntu" ++ [34%N])]).
  - repeat constructor; try reflexivity; cbn [fst snd]; intros H; simpl in H;
      repeat (destruct H as [H | H]; [discriminate|]); contradiction.
  - reflexivity.
Defined.

(** ** Versions that are not strings *)

(** X22.  A version given as an integer (as a YAML file that writes
    [version: 5] yields) qualifies the package with its decimal text when
    it is not zero; the integer 0 is treated as no version, and the token
    is the name alone. *)
Theorem install_integer_version :
  forall (w : World) (st : State) (b : BackendClass) (name : str) (n : Z),
    snd (run w st (PackageManagerBackend.install (methods_of b) (VStr name) (VInt n))) =
      started st
        (argv (install_words b)
              (if Z.eqb n 0 then name else name ++ version_sep b ++ Str.of_Z n)).
Proof.
  intros w st b name n. unfold run.
  destruct b; cbn [methods_of PackageManagerBackend.install APTBackend.methods
                   DNFBackend.methods PacmanBackend.methods];
    unfold APTBackend.install, DNFBackend.install, PacmanBackend.install,
           APTBackend.install_cmd, DNFBackend.install_cmd,
           PacmanBackend.install_cmd, versioned, bind, ask;
    cbv zeta; cbn [truthy format];
    destruct (Z.eqb n 0); cbn [negb];
    apply spawned_run, argv_of_token.
Qed.
